(** * QKart cart service: cart mutation and checkout

    A shallow embedding of [src/services/cart.service.js] and of the part of
    [src/models/user.model.js] it calls, followed by the properties of the
    cart and checkout workflow.

    Conventions of the embedding:
    - a JavaScript [Number] (cost, quantity, wallet money) is an integer [Z];
      [checkout] computes the total and the debit on these integers exactly,
      [Binary64.checkout] computes them as Number arithmetic does, every
      sum, product and difference rounded to the nearest binary64 value; the
      two agree as long as the amounts stay within 2^53
      ([Binary64_checkout_exact]);
    - a Mongo collection with a unique key is a finite map from that key
      to the rest of the document ([carts], [users]); the read-only [products]
      collection is the list of its documents, searched by [_id];
    - an [async] function is a computation in the monad [M], which threads
      the database and may throw an [ApiError]; what was persisted before a
      throw stays persisted. *)

From Stdlib Require Import ZArith.
From stdpp Require Import gmap strings list fin_maps.

Local Open Scope Z_scope.

(** ** Data model *)

Module Product.
(** Modelled from the spec: the Product document ([models/product.model.js]
    belongs to another file): an id, a cost, and descriptive fields
    of which [name] stands for all. *)
Record t := mk { _id : string; name : string; cost : Z }.
End Product.

Module CartItem.
(** One line of a cart: [{ product, quantity }], the product being a copy of
    the Product document taken when the line was pushed. *)
Record t := mk { product : Product.t; quantity : Z }.
End CartItem.

Module Cart.
(** Modelled from the spec: the Cart document ([models/cart.model.js]
    belongs to another file): the owner's email and the ordered lines. *)
Record t := mk { email : string; cartItems : list CartItem.t }.
End Cart.

(** [config.default_wallet_money] and [config.default_address] of
    [config/config.js]. *)
Record Config := { default_wallet_money : Z; default_address : string }.

Module User.
(** The fields of [userSchema]. *)
Record t := mk {
  name : string;
  email : string;
  password : string;
  walletMoney : Z;
  address : string
}.

(** [userSchema.methods.hasSetNonDefaultAddress]:
    [user.address !== config.default_address] *)
Definition hasSetNonDefaultAddress (config : Config) (user : t) : bool :=
  negb (String.eqb (address user) (default_address config)).
End User.

(** [new ApiError(statusCode, message)] *)
Record ApiError := { statusCode : Z; message : string }.

Module httpStatus.
Definition BAD_REQUEST : Z := 400.
Definition NOT_FOUND : Z := 404.
Definition INTERNAL_SERVER_ERROR : Z := 500.
End httpStatus.

(** ** The database *)

(** [carts] is keyed by the owner's email, [users] by the user's email (both
    unique); [createFaulty] says whether the persistence layer rejects the next
    [Cart.create], the one fault the service catches. *)
Record Db := {
  carts : gmap string (list CartItem.t);
  products : list Product.t;
  users : gmap string User.t;
  createFaulty : bool
}.

Definition set_carts (f : gmap string (list CartItem.t) → gmap string (list CartItem.t))
    (db : Db) : Db :=
  {| carts := f (carts db); products := products db; users := users db;
     createFaulty := createFaulty db |}.

Definition set_users (f : gmap string User.t → gmap string User.t) (db : Db) : Db :=
  {| carts := carts db; products := products db; users := f (users db);
     createFaulty := createFaulty db |}.

(** ** The monad of service calls *)

Inductive Result (A : Type) : Type :=
  | Ok (a : A)
  | Throw (e : ApiError).
Arguments Ok {A} a.
Arguments Throw {A} e.

Definition M (A : Type) : Type := Db → Db * Result A.

#[export] Instance M_ret : MRet M := λ A a db, (db, Ok a).

#[export] Instance M_bind : MBind M := λ A B f m db,
  match m db with
  | (db', Ok a) => f a db'
  | (db', Throw e) => (db', Throw e)
  end.

Definition throw {A : Type} (e : ApiError) : M A := λ db, (db, Throw e).

Definition gets {A : Type} (f : Db → A) : M A := λ db, (db, Ok (f db)).

Definition modify (f : Db → Db) : M () := λ db, (f db, Ok ()).

(** [try { body } catch (error) { throw handler }] *)
Definition try_catch {A : Type} (body : M A) (handler : ApiError) : M A := λ db,
  match body db with
  | (db', Ok a) => (db', Ok a)
  | (db', Throw _) => (db', Throw handler)
  end.

(** ** Array methods *)

(** [Array.prototype.some] *)
Definition some {A : Type} (f : A → bool) (l : list A) : bool := existsb f l.

(** [Array.prototype.findIndex]: the first index whose element satisfies [f],
    or [-1]. *)
Fixpoint findIndex {A : Type} (f : A → bool) (l : list A) : Z :=
  match l with
  | [] => -1
  | x :: l' =>
      if f x then 0
      else let i := findIndex f l' in if i =? -1 then -1 else i + 1
  end.

(** [Array.prototype.reduce] with an initial value *)
Definition reduce {A B : Type} (f : B → A → B) (init : B) (l : list A) : B :=
  fold_left f l init.

(** [Array.prototype.push] *)
Definition push {A : Type} (l : list A) (x : A) : list A := l ++ [x].

(** [Array.prototype.splice(start, 1)] for [0 <= start] *)
Definition splice1 {A : Type} (start : Z) (l : list A) : list A :=
  delete (Z.to_nat start) l.

(** ** Model accessors *)

(** [Cart.findOne({ email })]: the document or [null]. *)
Definition Cart_findOne (email : string) : M (option Cart.t) :=
  gets (λ db, Cart.mk email <$> carts db !! email).

(** [Cart.create({ email, cartItems })] *)
Definition Cart_create (doc : Cart.t) : M Cart.t := λ db,
  if createFaulty db
  then (db, Throw {| statusCode := httpStatus.INTERNAL_SERVER_ERROR;
                     message := "persistence fault" |})
  else (set_carts <[Cart.email doc := Cart.cartItems doc]> db, Ok doc).

(** [cart.save()] *)
Definition Cart_save (cart : Cart.t) : M () :=
  modify (set_carts <[Cart.email cart := Cart.cartItems cart]>).

(** The first document of [products] whose [_id] is [productId]. *)
Definition productOf (db : Db) (productId : string) : option Product.t :=
  find (λ p, String.eqb (Product._id p) productId) (products db).

(** [Product.findById(productId)]: the document or [null]. *)
Definition Product_findById (productId : string) : M (option Product.t) :=
  gets (λ db, productOf db productId).

(** [user.save()]; the password is not modified by the cart service, so the
    pre-save hook leaves it alone. *)
Definition User_save (user : User.t) : M () :=
  modify (set_users <[User.email user := user]>).

(** ** The cart service *)

Section CartService.

Variable config : Config.

(** The callback [(item) => item.product._id.toString() === productId] *)
Definition isProduct (productId : string) (item : CartItem.t) : bool :=
  String.eqb (Product._id (CartItem.product item)) productId.

Definition getCartByUser (user : User.t) : M Cart.t :=
  cart ← Cart_findOne (User.email user);
  match cart with
  | None => throw {| statusCode := httpStatus.NOT_FOUND;
                     message := "User does not have a cart" |}
  | Some cart => mret cart
  end.

Definition addProductToCart (user : User.t) (productId : string) (quantity : Z)
    : M Cart.t :=
  cart ← Cart_findOne (User.email user);
  cart ← match cart with
         | None =>
             try_catch
               (Cart_create {| Cart.email := User.email user; Cart.cartItems := [] |})
               {| statusCode := httpStatus.INTERNAL_SERVER_ERROR;
                  message := "Cart creation failed" |}
         | Some cart => mret cart
         end;
  let productExists := some (isProduct productId) (Cart.cartItems cart) in
  if productExists then
    throw {| statusCode := httpStatus.BAD_REQUEST;
             message := "Product already in cart. Use the cart sidebar to update or remove product from cart" |}
  else
    product ← Product_findById productId;
    match product with
    | None => throw {| statusCode := httpStatus.BAD_REQUEST;
                       message := "Product doesn't exist in database" |}
    | Some product =>
        let cart :=
          {| Cart.email := Cart.email cart;
             Cart.cartItems :=
               push (Cart.cartItems cart)
                    {| CartItem.product := product; CartItem.quantity := quantity |} |} in
        Cart_save cart;;
        mret cart
    end.

Definition updateProductInCart (user : User.t) (productId : string) (quantity : Z)
    : M Cart.t :=
  cart ← Cart_findOne (User.email user);
  match cart with
  | None =>
      throw {| statusCode := httpStatus.BAD_REQUEST;
               message := "User does not have a cart. Use POST to create cart and add a product" |}
  | Some cart =>
      product ← Product_findById productId;
      match product with
      | None => throw {| statusCode := httpStatus.BAD_REQUEST;
                         message := "Product doesn't exist in database" |}
      | Some _ =>
          let productIndex := findIndex (isProduct productId) (Cart.cartItems cart) in
          if productIndex =? -1 then
            throw {| statusCode := httpStatus.BAD_REQUEST;
                     message := "Product not in cart" |}
          else
            let cart :=
              {| Cart.email := Cart.email cart;
                 Cart.cartItems :=
                   alter (λ item, {| CartItem.product := CartItem.product item;
                                     CartItem.quantity := quantity |})
                         (Z.to_nat productIndex) (Cart.cartItems cart) |} in
            Cart_save cart;;
            mret cart
      end
  end.

Definition deleteProductFromCart (user : User.t) (productId : string) : M () :=
  cart ← Cart_findOne (User.email user);
  match cart with
  | None => throw {| statusCode := httpStatus.BAD_REQUEST;
                     message := "User does not have a cart." |}
  | Some cart =>
      let productIndex := findIndex (isProduct productId) (Cart.cartItems cart) in
      if productIndex =? -1 then
        throw {| statusCode := httpStatus.BAD_REQUEST;
                 message := "Product not in cart" |}
      else
        Cart_save {| Cart.email := Cart.email cart;
                     Cart.cartItems := splice1 productIndex (Cart.cartItems cart) |}
  end.

(** The reducer [(acc, item) => acc + item.product.cost * item.quantity] *)
Definition addItemCost (acc : Z) (item : CartItem.t) : Z :=
  acc + Product.cost (CartItem.product item) * CartItem.quantity item.

Definition checkout (user : User.t) : M () :=
  cart ← Cart_findOne (User.email user);
  match cart with
  | None => throw {| statusCode := httpStatus.NOT_FOUND;
                     message := "User does not have a cart" |}
  | Some cart =>
      if (length (Cart.cartItems cart) =? 0)%nat then
        throw {| statusCode := httpStatus.BAD_REQUEST; message := "Cart is empty" |}
      else
        let hasAddress := User.hasSetNonDefaultAddress config user in
        if negb hasAddress then
          throw {| statusCode := httpStatus.BAD_REQUEST; message := "Address not set" |}
        else
          let totalCost := reduce addItemCost 0 (Cart.cartItems cart) in
          if totalCost >? User.walletMoney user then
            throw {| statusCode := httpStatus.BAD_REQUEST;
                     message := "User has insufficient money to process" |}
          else
            let user :=
              {| User.name := User.name user; User.email := User.email user;
                 User.password := User.password user;
                 User.walletMoney := User.walletMoney user - totalCost;
                 User.address := User.address user |} in
            User_save user;;
            Cart_save {| Cart.email := Cart.email cart; Cart.cartItems := [] |}
  end.

End CartService.

(** ** Number arithmetic *)

Module Number.
(** The integers on which Number arithmetic is exact: a sum, product or
    difference whose true value is such an integer comes out unrounded. *)
Definition safe (z : Z) : Prop := - 2 ^ 53 ≤ z ≤ 2 ^ 53.

(** The binary64 value nearest to the integer [z], a tie going to the even
    significand: [z] itself while it fits in 53 bits, and otherwise its 53
    leading bits [q], rounded by what the lower [e] bits [r] are worth, times
    [2 ^ e].  Magnitudes from 2^1024 on, where the code gets [Infinity], are
    outside the embedding. *)
Definition round (z : Z) : Z :=
  let e := Z.log2 (Z.abs z) - 52 in
  if e <=? 0 then z
  else
    let q := Z.abs z / 2 ^ e in
    let r := Z.abs z mod 2 ^ e in
    let q' :=
      if 2 * r <? 2 ^ e then q
      else if 2 ^ e <? 2 * r then q + 1
      else if Z.even q then q else q + 1 in
    Z.sgn z * (q' * 2 ^ e).

(** [x + y], [x - y] and [x * y] on integer-valued Numbers *)
Definition add (x y : Z) : Z := round (x + y).

Definition sub (x y : Z) : Z := round (x - y).

Definition mul (x y : Z) : Z := round (x * y).
End Number.

(** ** Checkout in Number arithmetic *)

Module Binary64.
(** The reducer [(acc, item) => acc + item.product.cost * item.quantity] *)
Definition addItemCost (acc : Z) (item : CartItem.t) : Z :=
  Number.add acc
    (Number.mul (Product.cost (CartItem.product item)) (CartItem.quantity item)).

Definition checkout (config : Config) (user : User.t) : M () :=
  cart ← Cart_findOne (User.email user);
  match cart with
  | None => throw {| statusCode := httpStatus.NOT_FOUND;
                     message := "User does not have a cart" |}
  | Some cart =>
      if (length (Cart.cartItems cart) =? 0)%nat then
        throw {| statusCode := httpStatus.BAD_REQUEST; message := "Cart is empty" |}
      else
        let hasAddress := User.hasSetNonDefaultAddress config user in
        if negb hasAddress then
          throw {| statusCode := httpStatus.BAD_REQUEST; message := "Address not set" |}
        else
          let totalCost := reduce addItemCost 0 (Cart.cartItems cart) in
          if totalCost >? User.walletMoney user then
            throw {| statusCode := httpStatus.BAD_REQUEST;
                     message := "User has insufficient money to process" |}
          else
            let user :=
              {| User.name := User.name user; User.email := User.email user;
                 User.password := User.password user;
                 User.walletMoney := Number.sub (User.walletMoney user) totalCost;
                 User.address := User.address user |} in
            User_save user;;
            Cart_save {| Cart.email := Cart.email cart; Cart.cartItems := [] |}
  end.
End Binary64.

(** ** The password validator of the user schema *)

(** Of a password only the ASCII characters matter here: no other character
    matches [\d] or [[a-zA-Z]]. *)

Module password.
(** What a schema validator does: return, or [throw new Error(message)]. *)
Inductive Validation : Type :=
  | Returns
  | ThrowsError (message : string).

(** The character class [\d] *)
Definition isDigit (c : Ascii.ascii) : bool :=
  ((48 <=? Ascii.nat_of_ascii c) && (Ascii.nat_of_ascii c <=? 57))%nat.

(** The character class [[a-zA-Z]] *)
Definition isLetter (c : Ascii.ascii) : bool :=
  ((97 <=? Ascii.nat_of_ascii c) && (Ascii.nat_of_ascii c <=? 122) ||
   (65 <=? Ascii.nat_of_ascii c) && (Ascii.nat_of_ascii c <=? 90))%nat.

(** [value.match(/class/)] is not [null], for a one-character class. *)
Fixpoint matches (class : Ascii.ascii → bool) (value : string) : bool :=
  match value with
  | EmptyString => false
  | String c rest => class c || matches class rest
  end.

(** The [validate(value)] function of the [password] path of [userSchema]. *)
Definition validate (value : string) : Validation :=
  if negb (matches isDigit value) || negb (matches isLetter value)
  then ThrowsError "Password must contain at least one letter and one number"
  else Returns.
End password.

(** ** Vocabulary of the properties *)

Definition BadRequest (msg : string) : ApiError :=
  {| statusCode := httpStatus.BAD_REQUEST; message := msg |}.

Definition NotFound (msg : string) : ApiError :=
  {| statusCode := httpStatus.NOT_FOUND; message := msg |}.

Definition InternalError (msg : string) : ApiError :=
  {| statusCode := httpStatus.INTERNAL_SERVER_ERROR; message := msg |}.

(** Snapshot cost times quantity of one line, and its sum over a cart. *)
Definition lineCost (item : CartItem.t) : Z :=
  Product.cost (CartItem.product item) * CartItem.quantity item.

Definition sumLineCosts (items : list CartItem.t) : Z :=
  foldr (λ item acc, lineCost item + acc) 0 items.

(** The reducer of checkout, started at [acc], meets on [items] only
    amounts on which Number arithmetic is exact: every line cost and every
    running total. *)
Fixpoint exactAmounts (acc : Z) (items : list CartItem.t) : Prop :=
  match items with
  | [] => True
  | item :: items' =>
      Number.safe (lineCost item) ∧
      Number.safe (acc + lineCost item) ∧
      exactAmounts (acc + lineCost item) items'
  end.

(** The user with another wallet balance. *)
Definition withWallet (user : User.t) (balance : Z) : User.t :=
  {| User.name := User.name user; User.email := User.email user;
     User.password := User.password user;
     User.walletMoney := balance;
     User.address := User.address user |}.

(** The wallet debit of a successful checkout. *)
Definition debit (user : User.t) (amount : Z) : User.t :=
  {| User.name := User.name user; User.email := User.email user;
     User.password := User.password user;
     User.walletMoney := User.walletMoney user - amount;
     User.address := User.address user |}.

(** The line [item] with its quantity replaced. *)
Definition withQuantity (quantity : Z) (item : CartItem.t) : CartItem.t :=
  {| CartItem.product := CartItem.product item; CartItem.quantity := quantity |}.

(** Every line of every cart has a quantity above zero. *)
Definition positiveQuantities (db : Db) : Prop :=
  map_Forall (λ _ items, Forall (λ item, 0 < CartItem.quantity item) items) (carts db).

(** No two lines of the cart are for the same product. *)
Definition uniqueProducts (items : list CartItem.t) : Prop :=
  NoDup ((λ item, Product._id (CartItem.product item)) <$> items).

(** Every cart has at most one line per product. *)
Definition uniqueCarts (db : Db) : Prop :=
  map_Forall (λ _ items, uniqueProducts items) (carts db).

(** The line [{ product, quantity }]. *)
Definition line (product : Product.t) (quantity : Z) : CartItem.t :=
  {| CartItem.product := product; CartItem.quantity := quantity |}.

(** The cart of the user holds a line for [productId]. *)
Definition inCart (productId : string) (items : list CartItem.t) : Prop :=
  ∃ item, item ∈ items ∧ Product._id (CartItem.product item) = productId.

(** The error of the duplicate guard of [addProductToCart]. *)
Definition alreadyInCart : ApiError :=
  BadRequest "Product already in cart. Use the cart sidebar to update or remove product from cart".

(** ** Sample data *)

Definition sampleConfig : Config :=
  {| default_wallet_money := 500; default_address := "ADDRESS_NOT_SET" |}.

Definition alice : User.t :=
  {| User.name := "Alice"; User.email := "alice@example.com";
     User.password := "$2a$09$hash"; User.walletMoney := 500;
     User.address := "123 Main St" |}.

(** A user who never set an address. *)
Definition bob : User.t :=
  {| User.name := "Bob"; User.email := "bob@example.com";
     User.password := "$2a$09$hash"; User.walletMoney := 500;
     User.address := "ADDRESS_NOT_SET" |}.

Definition widget : Product.t :=
  {| Product._id := "p1"; Product.name := "Widget"; Product.cost := 100 |}.

Definition gadget : Product.t :=
  {| Product._id := "p2"; Product.name := "Gadget"; Product.cost := 40 |}.

(** A database with both users, the given carts and the given products. *)
Definition shop (cs : list (string * list CartItem.t)) (ps : list Product.t) : Db :=
  {| carts := list_to_map cs; products := ps;
     users := <[User.email alice := alice]> {[ User.email bob := bob ]};
     createFaulty := false |}.

(** Alice's cart holds three widgets. *)
Definition dbThree : Db := shop [(User.email alice, [line widget 3])] [widget].

(** Alice's cart holds five widgets, worth exactly her wallet. *)
Definition dbFive : Db := shop [(User.email alice, [line widget 5])] [widget].

(** Alice's cart holds six widgets, worth more than her wallet. *)
Definition dbSix : Db := shop [(User.email alice, [line widget 6])] [widget].

(** Nobody has a cart yet. *)
Definition dbNoCart : Db := shop [] [widget; gadget].

(** Bob's cart holds one widget. *)
Definition dbBob : Db := shop [(User.email bob, [line widget 1])] [widget].

(** Alice's cart holds three widgets and two gadgets. *)
Definition dbTwoLines : Db :=
  shop [(User.email alice, [line widget 3; line gadget 2])] [widget; gadget].

(** Alice's cart holds three widgets, and the widget has since been removed
    from the products collection. *)
Definition dbWidgetGone : Db := shop [(User.email alice, [line widget 3])] [gadget].

(** Carol's wallet holds 2^53 + 2. *)
Definition carol : User.t :=
  {| User.name := "Carol"; User.email := "carol@example.com";
     User.password := "$2a$09$hash"; User.walletMoney := 9007199254740994;
     User.address := "9 High St" |}.

(** Dave's wallet holds 2^53. *)
Definition dave : User.t :=
  {| User.name := "Dave"; User.email := "dave@example.com";
     User.password := "$2a$09$hash"; User.walletMoney := 9007199254740992;
     User.address := "4 Low Rd" |}.

Definition penny : Product.t :=
  {| Product._id := "p3"; Product.name := "Penny"; Product.cost := 1 |}.

(** A product that costs 2^53. *)
Definition jewel : Product.t :=
  {| Product._id := "p4"; Product.name := "Jewel"; Product.cost := 9007199254740992 |}.

(** Carol's cart holds one penny. *)
Definition dbCarol : Db := shop [(User.email carol, [line penny 1])] [penny; jewel].

(** Dave's cart holds one jewel and one penny. *)
Definition dbDave : Db :=
  shop [(User.email dave, [line jewel 1; line penny 1])] [penny; jewel].

(** ** Further vocabulary *)

(** The database with another products collection. *)
Definition set_products (ps : list Product.t) (db : Db) : Db :=
  {| carts := carts db; products := ps; users := users db;
     createFaulty := createFaulty db |}.

(** The lines of the cart of [email], none when there is no cart. *)
Definition linesOf (db : Db) (email : string) : list CartItem.t :=
  default [] (carts db !! email).

(** A request to the cart service, as the routes issue them. *)
Inductive Call : Type :=
  | GetCart (user : User.t)
  | AddProduct (user : User.t) (productId : string) (quantity : Z)
  | UpdateProduct (user : User.t) (productId : string) (quantity : Z)
  | DeleteProduct (user : User.t) (productId : string)
  | Checkout (user : User.t).

(** The database after one request, whether it returned or threw. *)
Definition perform (config : Config) (db : Db) (c : Call) : Db :=
  match c with
  | GetCart user => (getCartByUser user db).1
  | AddProduct user productId quantity =>
      (addProductToCart user productId quantity db).1
  | UpdateProduct user productId quantity =>
      (updateProductInCart user productId quantity db).1
  | DeleteProduct user productId => (deleteProductFromCart user productId db).1
  | Checkout user => (checkout config user db).1
  end.

(** The database after a sequence of requests, one after the other. *)
Definition session (config : Config) (cs : list Call) (db : Db) : Db :=
  fold_left (perform config) cs db.

(** The quantity a request carries is above zero (requests without a
    quantity qualify). *)
Definition positiveCall (c : Call) : Prop :=
  match c with
  | AddProduct _ _ quantity | UpdateProduct _ _ quantity => 0 < quantity
  | _ => True
  end.

(** Alice's cart holds three widgets; widgets and gadgets are on sale. *)
Definition dbThreeOfTwo : Db :=
  shop [(User.email alice, [line widget 3])] [widget; gadget].

(** A database without carts whose persistence layer rejects [Cart.create]. *)
Definition dbFaulty : Db :=
  {| carts := ∅; products := [widget]; users := ∅; createFaulty := true |}.

(** Alice's cart holds three widgets bought at 100; the widget now costs 250. *)
Definition dbRepriced : Db :=
  shop [(User.email alice, [line widget 3])]
       [{| Product._id := "p1"; Product.name := "Widget"; Product.cost := 250 |}].

(** ** Running the monad *)

Ltac run :=
  unfold checkout, addProductToCart, updateProductInCart, deleteProductFromCart,
    getCartByUser, Cart_findOne, Cart_save, Cart_create, User_save,
    Product_findById, gets, modify, throw, try_catch;
  unfold mbind, M_bind, mret, M_ret; simpl.

(** Closes a goal that relates the outcome of a call, already computed, to
    the facts that decide it. *)
Ltac decide_outcome :=
  repeat split; intros;
  repeat match goal with
         | H : _ ∧ _ |- _ => destruct H
         | H : ∃ _, _ |- _ => destruct H
         | H : is_Some None |- _ => destruct H
         | H : ¬ _ |- False => apply H; clear H
         | |- ¬ _ => intro
         end;
  try discriminate; try congruence; try done; eauto;
  try (exfalso;
       match goal with
       | H : ¬ _ |- _ => apply H; repeat split; (done || congruence)
       end).

(** ** Array lemmas *)

Lemma reduce_addItemCost (items : list CartItem.t) (acc : Z) :
  reduce addItemCost acc items = acc + sumLineCosts items.
Proof.
  unfold reduce. revert acc.
  induction items as [|item items IH]; intros acc; simpl.
  - lia.
  - rewrite IH. unfold addItemCost, lineCost. lia.
Qed.

Lemma findIndex_lower {A : Type} (f : A → bool) (l : list A) : -1 ≤ findIndex f l.
Proof.
  induction l as [|x l IH]; simpl; [lia|].
  destruct (f x); [lia|].
  destruct (Z.eqb_spec (findIndex f l) (-1)); lia.
Qed.

Lemma findIndex_none {A : Type} (f : A → bool) (l : list A) :
  findIndex f l = -1 ↔ some f l = false.
Proof.
  unfold some. induction l as [|x l IH]; simpl; [done|].
  destruct (f x); simpl; [split; [lia|done]|].
  pose proof (findIndex_lower f l).
  destruct (Z.eqb_spec (findIndex f l) (-1)) as [E|E]; rewrite <- IH; split; auto; lia.
Qed.

(** A found index splits the array around the first element satisfying [f]. *)
Lemma findIndex_found {A : Type} (f : A → bool) (l : list A) :
  findIndex f l ≠ -1 →
  ∃ l1 x l2,
    l = l1 ++ x :: l2 ∧ f x = true ∧ Forall (λ y, f y = false) l1 ∧
    Z.to_nat (findIndex f l) = length l1.
Proof.
  induction l as [|x l IH]; simpl; [done|].
  destruct (f x) eqn:Hx.
  - intros _. exists [], x, l. by repeat split.
  - pose proof (findIndex_lower f l).
    destruct (Z.eqb_spec (findIndex f l) (-1)) as [E|E]; [done|].
    intros _. destruct (IH E) as (l1 & y & l2 & -> & Hy & Hl1 & Hi).
    exists (x :: l1), y, l2. repeat split; auto.
    simpl. lia.
Qed.

Lemma some_true {A : Type} (f : A → bool) (l : list A) :
  some f l = true ↔ ∃ x, x ∈ l ∧ f x = true.
Proof.
  unfold some. rewrite existsb_exists.
  split; intros (x & ? & ?); exists x; split; auto; by apply list_elem_of_In.
Qed.

Lemma isProduct_true (productId : string) (item : CartItem.t) :
  isProduct productId item = true ↔ Product._id (CartItem.product item) = productId.
Proof. unfold isProduct. apply String.eqb_eq. Qed.

Lemma hasSetNonDefaultAddress_true (config : Config) (user : User.t) :
  User.hasSetNonDefaultAddress config user = true ↔
  User.address user ≠ default_address config.
Proof.
  unfold User.hasSetNonDefaultAddress.
  rewrite negb_true_iff. apply String.eqb_neq.
Qed.

Lemma length_eqb_0 {A : Type} (l : list A) :
  (length l =? 0)%nat = true ↔ l = [].
Proof. destruct l; simpl; split; done. Qed.

(** ** Reading the cart *)

(** [getCartByUser] throws 404 exactly for the users without a cart, and
    otherwise returns the cart; it writes nothing. *)
Lemma getCartByUser_eq (db : Db) (user : User.t) :
  getCartByUser user db =
  match carts db !! User.email user with
  | None => (db, Throw (NotFound "User does not have a cart"))
  | Some items => (db, Ok (Cart.mk (User.email user) items))
  end.
Proof. run. by destruct (carts db !! User.email user). Qed.

(** ** Checkout *)

(** What [checkout] returns, guard by guard. *)
Lemma checkout_eq (config : Config) (db : Db) (user : User.t) :
  checkout config user db =
  match carts db !! User.email user with
  | None => (db, Throw (NotFound "User does not have a cart"))
  | Some items =>
      if (length items =? 0)%nat then (db, Throw (BadRequest "Cart is empty"))
      else if negb (User.hasSetNonDefaultAddress config user)
      then (db, Throw (BadRequest "Address not set"))
      else if sumLineCosts items >? User.walletMoney user
      then (db, Throw (BadRequest "User has insufficient money to process"))
      else (set_carts <[User.email user := []]>
              (set_users <[User.email user := debit user (sumLineCosts items)]> db),
            Ok ())
  end.
Proof.
  run. destruct (carts db !! User.email user) as [items|]; simpl; [|done].
  rewrite reduce_addItemCost, Z.add_0_l.
  destruct (length items =? 0)%nat; [done|].
  destruct (User.hasSetNonDefaultAddress config user); simpl; [|done].
  by destruct (sumLineCosts items >? User.walletMoney user).
Qed.

(** *** Checkout in Number arithmetic *)

Lemma Number_round_safe (z : Z) : Number.safe z → Number.round z = z.
Proof.
  unfold Number.safe. change (2 ^ 53) with 9007199254740992. intros Hz.
  destruct (decide (Z.abs z = 9007199254740992)) as [Habs|Habs].
  - assert (z = 9007199254740992 ∨ z = -9007199254740992) as [-> | ->] by lia;
      reflexivity.
  - unfold Number.round.
    assert (Hlog : Z.log2 (Z.abs z) - 52 ≤ 0).
    { destruct (decide (Z.abs z = 0)) as [->|Hnz]; [simpl; lia|].
      assert (Z.log2 (Z.abs z) < 53); [|lia].
      apply Z.log2_lt_pow2; [lia|].
      change (2 ^ 53) with 9007199254740992. lia. }
    apply Z.leb_le in Hlog. by rewrite Hlog.
Qed.

(** On exact amounts the reducer in Number arithmetic computes the sum of
    the line costs. *)
Lemma Binary64_reduce_exact (items : list CartItem.t) (acc : Z) :
  exactAmounts acc items →
  reduce Binary64.addItemCost acc items = acc + sumLineCosts items.
Proof.
  unfold reduce. revert acc.
  induction items as [|item items IH]; intros acc Hexact; simpl.
  - lia.
  - destruct Hexact as (Hline & Hacc & Hrest).
    assert (Hstep : Binary64.addItemCost acc item = acc + lineCost item).
    { unfold Binary64.addItemCost, Number.add, Number.mul.
      fold (lineCost item). by rewrite (Number_round_safe _ Hline), Number_round_safe. }
    rewrite Hstep, (IH _ Hrest). lia.
Qed.

(** What [Binary64.checkout] returns, guard by guard. *)
Lemma Binary64_checkout_eq (config : Config) (db : Db) (user : User.t) :
  Binary64.checkout config user db =
  match carts db !! User.email user with
  | None => (db, Throw (NotFound "User does not have a cart"))
  | Some items =>
      if (length items =? 0)%nat then (db, Throw (BadRequest "Cart is empty"))
      else if negb (User.hasSetNonDefaultAddress config user)
      then (db, Throw (BadRequest "Address not set"))
      else if reduce Binary64.addItemCost 0 items >? User.walletMoney user
      then (db, Throw (BadRequest "User has insufficient money to process"))
      else (set_carts <[User.email user := []]>
              (set_users
                 <[User.email user :=
                     withWallet user
                       (Number.sub (User.walletMoney user)
                          (reduce Binary64.addItemCost 0 items))]> db),
            Ok ())
  end.
Proof.
  unfold Binary64.checkout. run.
  destruct (carts db !! User.email user) as [items|]; simpl; [|done].
  destruct (length items =? 0)%nat; [done|].
  destruct (User.hasSetNonDefaultAddress config user); simpl; [|done].
  by destruct (reduce Binary64.addItemCost 0 items >? User.walletMoney user).
Qed.

(** While the amounts stay exact, checkout in Number arithmetic is checkout
    on the integers. *)
Lemma Binary64_checkout_exact (config : Config) (db : Db) (user : User.t) :
  exactAmounts 0 (default [] (carts db !! User.email user)) →
  (sumLineCosts (default [] (carts db !! User.email user)) ≤ User.walletMoney user →
   Number.safe (User.walletMoney user -
                sumLineCosts (default [] (carts db !! User.email user)))) →
  Binary64.checkout config user db = checkout config user db.
Proof.
  rewrite Binary64_checkout_eq, checkout_eq.
  destruct (carts db !! User.email user) as [items|]; simpl; [|done].
  intros Hexact Hdebit.
  rewrite (Binary64_reduce_exact _ _ Hexact), Z.add_0_l.
  destruct (length items =? 0)%nat; [done|].
  destruct (negb _); [done|].
  destruct (Z.gtb_spec (sumLineCosts items) (User.walletMoney user)) as [Hgt|Hle];
    [done|].
  unfold Number.sub. by rewrite (Number_round_safe _ (Hdebit Hle)).
Qed.

(** Whatever the amounts, checkout in Number arithmetic throws before it
    writes, and its three guards ahead of the arithmetic are those of
    checkout on the integers. *)
Lemma Binary64_checkout_guards
    (config : Config) (db : Db) (user : User.t) (e : ApiError) :
  ((Binary64.checkout config user db).2 = Throw e →
   (Binary64.checkout config user db).1 = db) ∧
  (e ∈ [ NotFound "User does not have a cart"; BadRequest "Cart is empty";
         BadRequest "Address not set" ] →
   ((Binary64.checkout config user db).2 = Throw e ↔
    (checkout config user db).2 = Throw e)).
Proof.
  rewrite Binary64_checkout_eq, checkout_eq.
  destruct (carts db !! User.email user) as [items|]; [|done].
  destruct (length items =? 0)%nat; [done|].
  destruct (negb _); [done|].
  split.
  - by destruct (_ >? _).
  - intros He.
    assert (Hnot : e ≠ BadRequest "User has insufficient money to process").
    { intros ->. repeat (apply elem_of_cons in He as [He|He]; [discriminate|]).
      by apply elem_of_nil in He. }
    destruct (_ >? _), (_ >? _); simpl; split; intros H; try done;
      inversion H; by subst.
Qed.

(** C1 as stated fails: Carol has a non-empty cart, an address of her own
    and a wallet of 2^53 + 2, well above the total of 1; checkout succeeds,
    but 2^53 + 1 is no Number, and the balance persisted is 2^53, not the old
    balance minus the total. *)
Lemma checkout_debits_wallet_counterexample :
  carts dbCarol !! User.email carol = Some [line penny 1] ∧
  [line penny 1] ≠ [] ∧
  User.address carol ≠ default_address sampleConfig ∧
  sumLineCosts [line penny 1] ≤ User.walletMoney carol ∧
  (Binary64.checkout sampleConfig carol dbCarol).2 = Ok () ∧
  ∃ user',
    users (Binary64.checkout sampleConfig carol dbCarol).1 !! User.email carol =
      Some user' ∧
    User.walletMoney user' = 9007199254740992 ∧
    User.walletMoney user' ≠
      User.walletMoney carol - sumLineCosts [line penny 1].
Proof.
  split; [by vm_compute|]. split; [discriminate|]. split; [discriminate|].
  split; [vm_compute; discriminate|]. split; [by vm_compute|].
  exists (withWallet carol 9007199254740992).
  split; [by vm_compute|]. split; [by vm_compute|].
  vm_compute. discriminate.
Qed.

(** C1, as amended: with an existing non-empty cart, an address other than
    the default one, a wallet balance of at least the total cost (the sum
    over the cart's lines of snapshot cost times quantity), and amounts on
    which Number arithmetic is exact (every line cost, every running total
    and the new balance an integer of magnitude at most 2^53), checkout
    succeeds; the persisted user then holds the old balance minus the total
    cost and the persisted cart has no lines. *)
Theorem checkout_debits_wallet_and_empties_cart
    (config : Config) (db : Db) (user : User.t) (items : list CartItem.t) :
  carts db !! User.email user = Some items →
  items ≠ [] →
  User.address user ≠ default_address config →
  sumLineCosts items ≤ User.walletMoney user →
  exactAmounts 0 items →
  Number.safe (User.walletMoney user - sumLineCosts items) →
  ∃ db' user',
    Binary64.checkout config user db = (db', Ok ()) ∧
    users db' !! User.email user = Some user' ∧
    User.walletMoney user' = User.walletMoney user - sumLineCosts items ∧
    carts db' !! User.email user = Some [].
Proof.
  intros Hcart Hne Haddr Hfunds Hexact Hsafe.
  eexists _, (debit user (sumLineCosts items)).
  rewrite Binary64_checkout_exact by (by rewrite Hcart).
  rewrite checkout_eq, Hcart.
  destruct (length_eqb_0 items) as [Hlen _].
  destruct (length items =? 0)%nat; [by destruct Hne; apply Hlen|].
  apply hasSetNonDefaultAddress_true in Haddr. rewrite Haddr. simpl.
  destruct (Z.gtb_spec (sumLineCosts items) (User.walletMoney user)); [lia|].
  split; [reflexivity|]. simpl.
  by rewrite !lookup_insert_eq.
Qed.

(** C2 as stated fails: Dave has a wallet of 2^53 and a cart of one jewel at
    2^53 and one penny at 1, so the total, 2^53 + 1, strictly exceeds the
    balance; but the running total of the reducer rounds back to 2^53, and
    checkout succeeds instead of throwing. *)
Lemma checkout_insufficient_money_counterexample :
  carts dbDave !! User.email dave = Some [line jewel 1; line penny 1] ∧
  [line jewel 1; line penny 1] ≠ [] ∧
  User.address dave ≠ default_address sampleConfig ∧
  User.walletMoney dave < sumLineCosts [line jewel 1; line penny 1] ∧
  (Binary64.checkout sampleConfig dave dbDave).2 = Ok () ∧
  (Binary64.checkout sampleConfig dave dbDave).2 ≠
    Throw (BadRequest "User has insufficient money to process") ∧
  ∃ user',
    users (Binary64.checkout sampleConfig dave dbDave).1 !! User.email dave =
      Some user' ∧
    User.walletMoney user' = 0.
Proof.
  split; [by vm_compute|]. split; [discriminate|]. split; [discriminate|].
  split; [by vm_compute|].
  assert (Hok : (Binary64.checkout sampleConfig dave dbDave).2 = Ok ())
    by (by vm_compute).
  split; [exact Hok|]. split; [rewrite Hok; discriminate|].
  exists (withWallet dave 0).
  split; by vm_compute.
Qed.

(** C2, as amended: with a non-empty cart, an address other than the default
    one, and line costs and running totals on which Number arithmetic is
    exact (integers of magnitude at most 2^53), checkout throws "User has
    insufficient money to process" exactly when the total cost is strictly
    above the wallet balance; when both are equal it succeeds and the
    persisted balance is zero. *)
Theorem checkout_insufficient_money_iff
    (config : Config) (db : Db) (user : User.t) (items : list CartItem.t) :
  carts db !! User.email user = Some items →
  items ≠ [] →
  User.address user ≠ default_address config →
  exactAmounts 0 items →
  ((Binary64.checkout config user db).2 =
     Throw (BadRequest "User has insufficient money to process")
   ↔ User.walletMoney user < sumLineCosts items) ∧
  (sumLineCosts items = User.walletMoney user →
   ∃ db' user',
     Binary64.checkout config user db = (db', Ok ()) ∧
     users db' !! User.email user = Some user' ∧
     User.walletMoney user' = 0).
Proof.
  intros Hcart Hne Haddr Hexact.
  rewrite Binary64_checkout_eq, Hcart.
  rewrite (Binary64_reduce_exact _ _ Hexact), Z.add_0_l.
  destruct (length_eqb_0 items) as [Hlen _].
  destruct (length items =? 0)%nat; [by destruct Hne; apply Hlen|].
  apply hasSetNonDefaultAddress_true in Haddr. rewrite Haddr. simpl.
  destruct (Z.gtb_spec (sumLineCosts items) (User.walletMoney user)); simpl.
  - split; [split; [lia|done]|lia].
  - split; [split; [done|lia]|].
    intros Heq. eexists _, _.
    split; [reflexivity|]. simpl. rewrite lookup_insert_eq.
    split; [done|]. unfold withWallet, Number.sub. cbn [User.walletMoney].
    rewrite Heq, Z.sub_diag. reflexivity.
Qed.

(** C3: when checkout throws, the error is one of its four guard errors
    (no cart, empty cart, address not set, insufficient money) and the
    database is the one it started from: neither the user's wallet balance
    nor any cart has been written. *)
Theorem checkout_failure_changes_nothing
    (config : Config) (db db' : Db) (user : User.t) (e : ApiError) :
  checkout config user db = (db', Throw e) →
  db' = db ∧
  users db' !! User.email user = users db !! User.email user ∧
  carts db' !! User.email user = carts db !! User.email user ∧
  e ∈ [ NotFound "User does not have a cart";
        BadRequest "Cart is empty";
        BadRequest "Address not set";
        BadRequest "User has insufficient money to process" ].
Proof.
  rewrite checkout_eq. intros H.
  assert (db' = db ∧ e ∈ [ NotFound "User does not have a cart";
        BadRequest "Cart is empty";
        BadRequest "Address not set";
        BadRequest "User has insufficient money to process" ]) as [-> He];
    [|done].
  destruct (carts db !! User.email user) as [items|].
  - destruct (length items =? 0)%nat.
    { inversion H; subst. split; [done|]. set_solver. }
    destruct (negb (User.hasSetNonDefaultAddress config user)).
    { inversion H; subst. split; [done|]. set_solver. }
    destruct (sumLineCosts items >? User.walletMoney user).
    { inversion H; subst. split; [done|]. set_solver. }
    inversion H.
  - inversion H; subst. split; [done|]. set_solver.
Qed.

(** C4, as amended: with an existing non-empty cart, a user whose address is
    the default one gets "Address not set" from checkout, whatever the wallet
    balance and whatever the lines of the cart; nothing is written. *)
Theorem checkout_default_address_with_items
    (config : Config) (db : Db) (user : User.t) (items : list CartItem.t) :
  User.address user = default_address config →
  carts db !! User.email user = Some items →
  items ≠ [] →
  checkout config user db = (db, Throw (BadRequest "Address not set")).
Proof.
  intros Haddr Hcart Hne.
  rewrite checkout_eq, Hcart.
  destruct (length_eqb_0 items) as [Hlen _].
  destruct (length items =? 0)%nat; [by destruct Hne; apply Hlen|].
  unfold User.hasSetNonDefaultAddress. rewrite Haddr, String.eqb_refl. done.
Qed.

Lemma checkout_debits_wallet_and_empties_cart_witness :
  carts dbThree !! User.email alice = Some [line widget 3] ∧
  [line widget 3] ≠ [] ∧
  User.address alice ≠ default_address sampleConfig ∧
  sumLineCosts [line widget 3] ≤ User.walletMoney alice ∧
  exactAmounts 0 [line widget 3] ∧
  Number.safe (User.walletMoney alice - sumLineCosts [line widget 3]) ∧
  ∃ db' user',
    Binary64.checkout sampleConfig alice dbThree = (db', Ok ()) ∧
    users db' !! User.email alice = Some user' ∧
    User.walletMoney user' = 200 ∧
    carts db' !! User.email alice = Some [].
Proof.
  assert (H1 : carts dbThree !! User.email alice = Some [line widget 3])
    by reflexivity.
  assert (H2 : [line widget 3] ≠ []) by discriminate.
  assert (H3 : User.address alice ≠ default_address sampleConfig) by discriminate.
  assert (H4 : sumLineCosts [line widget 3] ≤ User.walletMoney alice)
    by (vm_compute; discriminate).
  assert (H5 : exactAmounts 0 [line widget 3])
    by (vm_compute; repeat split; discriminate).
  assert (H6 : Number.safe (User.walletMoney alice - sumLineCosts [line widget 3]))
    by (vm_compute; split; discriminate).
  split; [exact H1|]. split; [exact H2|]. split; [exact H3|]. split; [exact H4|].
  split; [exact H5|]. split; [exact H6|].
  exact (checkout_debits_wallet_and_empties_cart
           sampleConfig dbThree alice _ H1 H2 H3 H4 H5 H6).
Defined.

Lemma checkout_insufficient_money_iff_witness :
  carts dbFive !! User.email alice = Some [line widget 5] ∧
  [line widget 5] ≠ [] ∧
  User.address alice ≠ default_address sampleConfig ∧
  exactAmounts 0 [line widget 5] ∧
  ((Binary64.checkout sampleConfig alice dbFive).2 =
     Throw (BadRequest "User has insufficient money to process")
   ↔ User.walletMoney alice < sumLineCosts [line widget 5]) ∧
  ∃ db' user',
    Binary64.checkout sampleConfig alice dbFive = (db', Ok ()) ∧
    users db' !! User.email alice = Some user' ∧
    User.walletMoney user' = 0.
Proof.
  assert (H1 : carts dbFive !! User.email alice = Some [line widget 5])
    by reflexivity.
  assert (H2 : [line widget 5] ≠ []) by discriminate.
  assert (H3 : User.address alice ≠ default_address sampleConfig) by discriminate.
  assert (H4 : exactAmounts 0 [line widget 5])
    by (vm_compute; repeat split; discriminate).
  split; [exact H1|]. split; [exact H2|]. split; [exact H3|]. split; [exact H4|].
  destruct (checkout_insufficient_money_iff sampleConfig dbFive alice _ H1 H2 H3 H4)
    as [Hiff Hzero].
  split; [exact Hiff|]. apply Hzero. reflexivity.
Defined.

Lemma checkout_failure_changes_nothing_witness :
  checkout sampleConfig alice dbSix =
    (dbSix, Throw (BadRequest "User has insufficient money to process")) ∧
  dbSix = dbSix ∧
  users dbSix !! User.email alice = users dbSix !! User.email alice ∧
  carts dbSix !! User.email alice = carts dbSix !! User.email alice ∧
  BadRequest "User has insufficient money to process"
    ∈ [ NotFound "User does not have a cart";
        BadRequest "Cart is empty";
        BadRequest "Address not set";
        BadRequest "User has insufficient money to process" ].
Proof.
  assert (H : checkout sampleConfig alice dbSix =
    (dbSix, Throw (BadRequest "User has insufficient money to process")))
    by reflexivity.
  split; [exact H|].
  exact (checkout_failure_changes_nothing sampleConfig dbSix dbSix alice _ H).
Defined.

(** C4 as stated fails: Bob's address is the default one, yet without a cart
    checkout answers 404 "User does not have a cart", and with an empty cart
    400 "Cart is empty"; the cart guards come before the address guard. *)
Lemma checkout_default_address_counterexample :
  User.address bob = default_address sampleConfig ∧
  checkout sampleConfig bob dbNoCart =
    (dbNoCart, Throw (NotFound "User does not have a cart")) ∧
  (checkout sampleConfig bob dbNoCart).2 ≠ Throw (BadRequest "Address not set") ∧
  checkout sampleConfig bob (shop [(User.email bob, [])] [widget]) =
    (shop [(User.email bob, [])] [widget], Throw (BadRequest "Cart is empty")).
Proof. repeat split. discriminate. Qed.

Lemma checkout_default_address_with_items_witness :
  User.address bob = default_address sampleConfig ∧
  carts dbBob !! User.email bob = Some [line widget 1] ∧
  [line widget 1] ≠ [] ∧
  checkout sampleConfig bob dbBob = (dbBob, Throw (BadRequest "Address not set")).
Proof.
  assert (H1 : User.address bob = default_address sampleConfig) by reflexivity.
  assert (H2 : carts dbBob !! User.email bob = Some [line widget 1]) by reflexivity.
  assert (H3 : [line widget 1] ≠ []) by discriminate.
  split; [exact H1|]. split; [exact H2|]. split; [exact H3|].
  exact (checkout_default_address_with_items sampleConfig dbBob bob _ H1 H2 H3).
Defined.

(** ** Adding a product *)

Lemma inCart_some (productId : string) (items : list CartItem.t) :
  inCart productId items ↔ some (isProduct productId) items = true.
Proof.
  unfold inCart. rewrite some_true.
  split; intros (item & ? & ?); exists item; split; auto; by apply isProduct_true.
Qed.

Lemma not_inCart_some (productId : string) (items : list CartItem.t) :
  ¬ inCart productId items ↔ some (isProduct productId) items = false.
Proof. rewrite inCart_some. by destruct (some _ _). Qed.

(** What [addProductToCart] returns when the user has a cart. *)
Lemma addProductToCart_with_cart
    (db : Db) (user : User.t) (productId : string) (quantity : Z)
    (items : list CartItem.t) :
  carts db !! User.email user = Some items →
  addProductToCart user productId quantity db =
  if some (isProduct productId) items then (db, Throw alreadyInCart)
  else match productOf db productId with
       | None => (db, Throw (BadRequest "Product doesn't exist in database"))
       | Some product =>
           (set_carts <[User.email user := push items (line product quantity)]> db,
            Ok (Cart.mk (User.email user) (push items (line product quantity))))
       end.
Proof.
  intros Hcart. run. rewrite Hcart. simpl.
  destruct (some (isProduct productId) items); [done|].
  by destruct (productOf db productId).
Qed.

(** What [addProductToCart] returns when the user has no cart yet. *)
Lemma addProductToCart_without_cart
    (db : Db) (user : User.t) (productId : string) (quantity : Z) :
  carts db !! User.email user = None →
  addProductToCart user productId quantity db =
  if createFaulty db then (db, Throw (InternalError "Cart creation failed"))
  else match productOf db productId with
       | None => (set_carts <[User.email user := []]> db,
                  Throw (BadRequest "Product doesn't exist in database"))
       | Some product =>
           (set_carts <[User.email user := [line product quantity]]>
              (set_carts <[User.email user := []]> db),
            Ok (Cart.mk (User.email user) [line product quantity]))
       end.
Proof.
  intros Hcart. run. rewrite Hcart. simpl.
  destruct (createFaulty db); [done|]. simpl.
  unfold productOf. simpl.
  by destruct (find _ (products db)).
Qed.

(** [NoDup] on the product ids leaves one line per product. *)
Lemma uniqueProducts_filter (items : list CartItem.t) (item : CartItem.t) :
  uniqueProducts items →
  item ∈ items →
  filter (λ it, Product._id (CartItem.product it) =
                Product._id (CartItem.product item)) items = [item].
Proof.
  unfold uniqueProducts.
  induction items as [|x items IH]; simpl; intros Hnd Hin.
  - by apply elem_of_nil in Hin.
  - apply NoDup_cons in Hnd as [Hx Hnd].
    apply elem_of_cons in Hin as [->|Hin].
    + rewrite filter_cons_True by done. f_equal.
      destruct (filter _ items) as [|y l] eqn:Hf; [done|].
      assert (Hy : y ∈ y :: l) by (apply elem_of_cons; left; reflexivity).
      rewrite <- Hf in Hy. apply list_elem_of_filter in Hy as [Heq Hy].
      destruct Hx. rewrite <- Heq.
      by apply (list_elem_of_fmap_2 (λ it, Product._id (CartItem.product it))).
    + rewrite filter_cons_False; [by apply IH|].
      intros Heq. apply Hx. rewrite Heq.
      by apply (list_elem_of_fmap_2 (λ it, Product._id (CartItem.product it))).
Qed.

(** C5 as stated fails: Alice has no cart and "p9" is not a product; the call
    throws "Product doesn't exist in database", but by then it has created
    an empty cart for her, which stays.  And when the product is gone from
    the collection but still in the cart, the error is the duplicate one. *)
Lemma addProductToCart_unknown_product_counterexample :
  productOf dbNoCart "p9" = None ∧
  carts dbNoCart !! User.email alice = None ∧
  (addProductToCart alice "p9" 1 dbNoCart).2 =
    Throw (BadRequest "Product doesn't exist in database") ∧
  carts (addProductToCart alice "p9" 1 dbNoCart).1 !! User.email alice = Some [] ∧
  (addProductToCart alice "p9" 1 dbNoCart).1 ≠ dbNoCart ∧
  productOf dbWidgetGone "p1" = None ∧
  (addProductToCart alice "p1" 1 dbWidgetGone).2 = Throw alreadyInCart.
Proof.
  repeat split.
  intros H. apply (f_equal (λ db, carts db !! User.email alice)) in H.
  vm_compute in H. discriminate.
Qed.

(** C5, as amended: when [productId] resolves to no Product, is not in the
    user's cart, and the cart creation (needed when the user has no cart)
    does not fail, [addProductToCart] throws "Product doesn't exist in
    database"; every cart that existed keeps its lines, products and users
    are untouched, a user who had a cart finds the database unchanged, and a
    user who had none is left with a newly created empty cart. *)
Theorem addProductToCart_unknown_product
    (db : Db) (user : User.t) (productId : string) (quantity : Z) :
  productOf db productId = None →
  (∀ items, carts db !! User.email user = Some items → ¬ inCart productId items) →
  (carts db !! User.email user = None → createFaulty db = false) →
  ∃ db',
    addProductToCart user productId quantity db =
      (db', Throw (BadRequest "Product doesn't exist in database")) ∧
    (∀ email items, carts db !! email = Some items → carts db' !! email = Some items) ∧
    products db' = products db ∧
    users db' = users db ∧
    (is_Some (carts db !! User.email user) → db' = db) ∧
    (carts db !! User.email user = None →
     carts db' = <[User.email user := []]> (carts db)).
Proof.
  intros Hprod Hnew Hcreate.
  destruct (carts db !! User.email user) as [items|] eqn:Hcart.
  - exists db. rewrite (addProductToCart_with_cart _ _ _ _ _ Hcart).
    specialize (Hnew items eq_refl). apply not_inCart_some in Hnew.
    rewrite Hnew, Hprod.
    repeat split; auto. done.
  - exists (set_carts <[User.email user := []]> db).
    rewrite (addProductToCart_without_cart _ _ _ _ Hcart).
    rewrite Hcreate, Hprod by done.
    repeat split; auto.
    + intros email items Hl. simpl.
      rewrite lookup_insert_ne; [done|]. intros <-. congruence.
    + by intros [? ?].
Qed.

Lemma addProductToCart_unknown_product_witness :
  productOf dbNoCart "p9" = None ∧
  (∀ items, carts dbNoCart !! User.email alice = Some items → ¬ inCart "p9" items) ∧
  (carts dbNoCart !! User.email alice = None → createFaulty dbNoCart = false) ∧
  ∃ db',
    addProductToCart alice "p9" 1 dbNoCart =
      (db', Throw (BadRequest "Product doesn't exist in database")) ∧
    (∀ email items,
       carts dbNoCart !! email = Some items → carts db' !! email = Some items) ∧
    products db' = products dbNoCart ∧
    users db' = users dbNoCart ∧
    (is_Some (carts dbNoCart !! User.email alice) → db' = dbNoCart) ∧
    (carts dbNoCart !! User.email alice = None →
     carts db' = <[User.email alice := []]> (carts dbNoCart)).
Proof.
  assert (H1 : productOf dbNoCart "p9" = None) by reflexivity.
  assert (H2 : ∀ items,
    carts dbNoCart !! User.email alice = Some items → ¬ inCart "p9" items)
    by (intros items H; vm_compute in H; discriminate).
  assert (H3 : carts dbNoCart !! User.email alice = None →
    createFaulty dbNoCart = false) by reflexivity.
  split; [exact H1|]. split; [exact H2|]. split; [exact H3|].
  exact (addProductToCart_unknown_product dbNoCart alice "p9" 1 H1 H2 H3).
Defined.

(** C6: when the user's cart already has a line for [productId],
    [addProductToCart] throws the 400 "Product already in cart..." error and
    the cart is persisted as it was, no quantity merged; so a cart that holds
    one line per product still has exactly one line for [productId]
    afterwards: the line it had, with its original quantity. *)
Theorem addProductToCart_duplicate_keeps_single_line
    (db : Db) (user : User.t) (productId : string) (quantity : Z)
    (items : list CartItem.t) (item : CartItem.t) :
  carts db !! User.email user = Some items →
  item ∈ items →
  Product._id (CartItem.product item) = productId →
  (addProductToCart user productId quantity db).2 = Throw alreadyInCart ∧
  statusCode alreadyInCart = 400 ∧
  (addProductToCart user productId quantity db).1 = db ∧
  carts (addProductToCart user productId quantity db).1 !! User.email user =
    Some items ∧
  (uniqueProducts items →
   filter (λ it, Product._id (CartItem.product it) = productId) items = [item]).
Proof.
  intros Hcart Hin Hid.
  rewrite (addProductToCart_with_cart _ _ _ _ _ Hcart).
  assert (Hsome : some (isProduct productId) items = true).
  { apply inCart_some. by exists item. }
  rewrite Hsome. repeat split; [done|].
  intros Hunique. subst productId. by apply uniqueProducts_filter.
Qed.

Lemma addProductToCart_duplicate_keeps_single_line_witness :
  carts dbTwoLines !! User.email alice = Some [line widget 3; line gadget 2] ∧
  line gadget 2 ∈ [line widget 3; line gadget 2] ∧
  Product._id (CartItem.product (line gadget 2)) = "p2" ∧
  uniqueProducts [line widget 3; line gadget 2] ∧
  (addProductToCart alice "p2" 7 dbTwoLines).2 = Throw alreadyInCart ∧
  statusCode alreadyInCart = 400 ∧
  (addProductToCart alice "p2" 7 dbTwoLines).1 = dbTwoLines ∧
  carts (addProductToCart alice "p2" 7 dbTwoLines).1 !! User.email alice =
    Some [line widget 3; line gadget 2] ∧
  filter (λ it, Product._id (CartItem.product it) = "p2")
    [line widget 3; line gadget 2] = [line gadget 2].
Proof.
  assert (H1 : carts dbTwoLines !! User.email alice =
               Some [line widget 3; line gadget 2]) by reflexivity.
  assert (H2 : line gadget 2 ∈ [line widget 3; line gadget 2])
    by (apply elem_of_cons; right; apply elem_of_cons; left; reflexivity).
  assert (H3 : Product._id (CartItem.product (line gadget 2)) = "p2")
    by reflexivity.
  assert (H4 : uniqueProducts [line widget 3; line gadget 2])
    by (unfold uniqueProducts; apply (bool_decide_unpack _); vm_compute; exact I).
  split; [exact H1|]. split; [exact H2|]. split; [exact H3|]. split; [exact H4|].
  destruct (addProductToCart_duplicate_keeps_single_line
              dbTwoLines alice "p2" 7 _ _ H1 H2 H3)
    as (Herr & Hstatus & Hdb & Hcart & Hone).
  split; [exact Herr|]. split; [exact Hstatus|]. split; [exact Hdb|].
  split; [exact Hcart|]. exact (Hone H4).
Defined.

(** C10: the duplicate guard of [addProductToCart] comes before the
    product-existence guard: when the user's cart has a line for
    [productId], the call throws the 400 "Product already in cart. Use the
    cart sidebar to update or remove product from cart" error and writes
    nothing, whatever the products collection holds, so also when
    [productId] resolves to no Product any more. *)
Theorem addProductToCart_duplicate_guard_first
    (db : Db) (user : User.t) (productId : string) (quantity : Z)
    (items : list CartItem.t) :
  carts db !! User.email user = Some items →
  inCart productId items →
  addProductToCart user productId quantity db =
    (db, Throw {| statusCode := 400;
                  message := "Product already in cart. Use the cart sidebar to update or remove product from cart" |}) ∧
  (productOf db productId = None →
   (addProductToCart user productId quantity db).2 ≠
     Throw (BadRequest "Product doesn't exist in database")).
Proof.
  intros Hcart Hin.
  rewrite (addProductToCart_with_cart _ _ _ _ _ Hcart).
  apply inCart_some in Hin. rewrite Hin. split; [done|]. intros _. discriminate.
Qed.

Lemma addProductToCart_duplicate_guard_first_witness :
  carts dbWidgetGone !! User.email alice = Some [line widget 3] ∧
  inCart "p1" [line widget 3] ∧
  productOf dbWidgetGone "p1" = None ∧
  addProductToCart alice "p1" 1 dbWidgetGone =
    (dbWidgetGone,
     Throw {| statusCode := 400;
              message := "Product already in cart. Use the cart sidebar to update or remove product from cart" |}) ∧
  (addProductToCart alice "p1" 1 dbWidgetGone).2 ≠
    Throw (BadRequest "Product doesn't exist in database").
Proof.
  assert (H1 : carts dbWidgetGone !! User.email alice = Some [line widget 3])
    by reflexivity.
  assert (H2 : inCart "p1" [line widget 3]).
  { exists (line widget 3). split; [|reflexivity]. apply elem_of_cons. by left. }
  assert (H3 : productOf dbWidgetGone "p1" = None) by reflexivity.
  split; [exact H1|]. split; [exact H2|]. split; [exact H3|].
  destruct (addProductToCart_duplicate_guard_first
              dbWidgetGone alice "p1" 1 _ H1 H2) as [Heq Hne].
  split; [exact Heq|]. exact (Hne H3).
Defined.

(** ** Updating and deleting a line *)

(** [inCart] splits the cart around its first line for [productId], which
    is where [findIndex] points. *)
Lemma inCart_findIndex (productId : string) (items : list CartItem.t) :
  inCart productId items →
  ∃ before item after,
    items = before ++ item :: after ∧
    Product._id (CartItem.product item) = productId ∧
    Forall (λ it, Product._id (CartItem.product it) ≠ productId) before ∧
    findIndex (isProduct productId) items ≠ -1 ∧
    Z.to_nat (findIndex (isProduct productId) items) = length before.
Proof.
  intros Hin. apply inCart_some in Hin.
  assert (Hidx : findIndex (isProduct productId) items ≠ -1).
  { intros E. apply findIndex_none in E. congruence. }
  destruct (findIndex_found _ _ Hidx) as (before & item & after & Hsplit & Hitem & Hb & Hlen).
  exists before, item, after. repeat split; auto.
  - by apply isProduct_true.
  - eapply Forall_impl; [exact Hb|]. simpl. intros it Hit Heq.
    apply isProduct_true in Heq. congruence.
Qed.

(** C7: when the user's cart has a line for [productId],
    [deleteProductFromCart] succeeds and removes that line, the first one for
    [productId], and no other: the lines before it and the lines after it
    are persisted as they were and in the same order, and there is one line
    fewer. *)
Theorem deleteProductFromCart_removes_exactly_one
    (db : Db) (user : User.t) (productId : string) (items : list CartItem.t) :
  carts db !! User.email user = Some items →
  inCart productId items →
  ∃ db' before item after,
    deleteProductFromCart user productId db = (db', Ok ()) ∧
    items = before ++ item :: after ∧
    Product._id (CartItem.product item) = productId ∧
    Forall (λ it, Product._id (CartItem.product it) ≠ productId) before ∧
    carts db' !! User.email user = Some (before ++ after) ∧
    S (length (before ++ after)) = length items.
Proof.
  intros Hcart Hin.
  destruct (inCart_findIndex _ _ Hin)
    as (before & item & after & Hsplit & Hid & Hbefore & Hidx & Hlen).
  exists (set_carts <[User.email user := before ++ after]> db), before, item, after.
  assert (Hsplice :
    splice1 (findIndex (isProduct productId) items) items = before ++ after).
  { unfold splice1. rewrite Hlen, Hsplit. apply delete_middle. }
  split.
  - run. rewrite Hcart. simpl.
    destruct (Z.eqb_spec (findIndex (isProduct productId) items) (-1)); [done|].
    by rewrite Hsplice.
  - repeat split; auto.
    + simpl. by rewrite lookup_insert_eq.
    + rewrite Hsplit, !length_app. simpl. lia.
Qed.

Lemma deleteProductFromCart_removes_exactly_one_witness :
  carts dbTwoLines !! User.email alice = Some [line widget 3; line gadget 2] ∧
  inCart "p2" [line widget 3; line gadget 2] ∧
  ∃ db' before item after,
    deleteProductFromCart alice "p2" dbTwoLines = (db', Ok ()) ∧
    [line widget 3; line gadget 2] = before ++ item :: after ∧
    Product._id (CartItem.product item) = "p2" ∧
    Forall (λ it, Product._id (CartItem.product it) ≠ "p2") before ∧
    carts db' !! User.email alice = Some (before ++ after) ∧
    S (length (before ++ after)) = length [line widget 3; line gadget 2].
Proof.
  assert (H1 : carts dbTwoLines !! User.email alice =
               Some [line widget 3; line gadget 2]) by reflexivity.
  assert (H2 : inCart "p2" [line widget 3; line gadget 2]).
  { exists (line gadget 2). split; [|reflexivity].
    apply elem_of_cons; right; apply elem_of_cons; left; reflexivity. }
  split; [exact H1|]. split; [exact H2|].
  exact (deleteProductFromCart_removes_exactly_one dbTwoLines alice "p2" _ H1 H2).
Defined.

(** C8: when [productId] is a Product and the user's cart has a line for
    it, [updateProductInCart] returns and persists the cart in which that
    line, the first one for [productId], has the new quantity and its own
    product snapshot; the lines before and after it, their order and the
    number of lines are unchanged. *)
Theorem updateProductInCart_sets_quantity_in_place
    (db : Db) (user : User.t) (productId : string) (quantity : Z)
    (items : list CartItem.t) :
  carts db !! User.email user = Some items →
  is_Some (productOf db productId) →
  inCart productId items →
  ∃ db' before item after,
    updateProductInCart user productId quantity db =
      (db', Ok (Cart.mk (User.email user)
                  (before ++ withQuantity quantity item :: after))) ∧
    items = before ++ item :: after ∧
    Product._id (CartItem.product item) = productId ∧
    Forall (λ it, Product._id (CartItem.product it) ≠ productId) before ∧
    carts db' !! User.email user =
      Some (before ++ withQuantity quantity item :: after) ∧
    CartItem.quantity (withQuantity quantity item) = quantity ∧
    CartItem.product (withQuantity quantity item) = CartItem.product item ∧
    length (before ++ withQuantity quantity item :: after) = length items.
Proof.
  intros Hcart [product Hprod] Hin.
  destruct (inCart_findIndex _ _ Hin)
    as (before & item & after & Hsplit & Hid & Hbefore & Hidx & Hlen).
  exists (set_carts
            <[User.email user := before ++ withQuantity quantity item :: after]> db),
    before, item, after.
  assert (Halter :
    alter (λ item, {| CartItem.product := CartItem.product item;
                      CartItem.quantity := quantity |})
      (Z.to_nat (findIndex (isProduct productId) items)) items =
    before ++ withQuantity quantity item :: after).
  { rewrite Hlen, Hsplit.
    rewrite <- (Nat.add_0_r (length before)). by rewrite alter_app_r. }
  split.
  - run. rewrite Hcart. simpl. rewrite Hprod.
    destruct (Z.eqb_spec (findIndex (isProduct productId) items) (-1)); [done|].
    by rewrite Halter.
  - repeat split; auto.
    + simpl. by rewrite lookup_insert_eq.
    + rewrite Hsplit, !length_app. done.
Qed.

Lemma updateProductInCart_sets_quantity_in_place_witness :
  carts dbTwoLines !! User.email alice = Some [line widget 3; line gadget 2] ∧
  is_Some (productOf dbTwoLines "p2") ∧
  inCart "p2" [line widget 3; line gadget 2] ∧
  ∃ db' before item after,
    updateProductInCart alice "p2" 9 dbTwoLines =
      (db', Ok (Cart.mk (User.email alice)
                  (before ++ withQuantity 9 item :: after))) ∧
    [line widget 3; line gadget 2] = before ++ item :: after ∧
    Product._id (CartItem.product item) = "p2" ∧
    Forall (λ it, Product._id (CartItem.product it) ≠ "p2") before ∧
    carts db' !! User.email alice = Some (before ++ withQuantity 9 item :: after) ∧
    CartItem.quantity (withQuantity 9 item) = 9 ∧
    CartItem.product (withQuantity 9 item) = CartItem.product item ∧
    length (before ++ withQuantity 9 item :: after) =
      length [line widget 3; line gadget 2].
Proof.
  assert (H1 : carts dbTwoLines !! User.email alice =
               Some [line widget 3; line gadget 2]) by reflexivity.
  assert (H2 : is_Some (productOf dbTwoLines "p2")) by (eexists; reflexivity).
  assert (H3 : inCart "p2" [line widget 3; line gadget 2]).
  { exists (line gadget 2). split; [|reflexivity].
    apply elem_of_cons; right; apply elem_of_cons; left; reflexivity. }
  split; [exact H1|]. split; [exact H2|]. split; [exact H3|].
  exact (updateProductInCart_sets_quantity_in_place
           dbTwoLines alice "p2" 9 _ H1 H2 H3).
Defined.

(** ** Invariants of the carts *)

Lemma positiveQuantities_save (db : Db) (email : string) (items : list CartItem.t) :
  positiveQuantities db →
  Forall (λ item, 0 < CartItem.quantity item) items →
  positiveQuantities (set_carts <[email := items]> db).
Proof. intros Hdb Hitems. unfold positiveQuantities. simpl. by apply map_Forall_insert_2. Qed.

Lemma positiveQuantities_lookup (db : Db) (email : string) (items : list CartItem.t) :
  positiveQuantities db →
  carts db !! email = Some items →
  Forall (λ item, 0 < CartItem.quantity item) items.
Proof. intros Hdb Hcart. exact (Hdb email items Hcart). Qed.

Lemma addProductToCart_positiveQuantities
    (db : Db) (user : User.t) (productId : string) (quantity : Z) :
  positiveQuantities db → 0 < quantity →
  positiveQuantities (addProductToCart user productId quantity db).1.
Proof.
  intros Hdb Hq.
  destruct (carts db !! User.email user) as [items|] eqn:Hcart.
  - rewrite (addProductToCart_with_cart _ _ _ _ _ Hcart).
    destruct (some _ items); [done|].
    destruct (productOf db productId); [|done]. simpl.
    apply positiveQuantities_save; [done|].
    unfold push. apply Forall_app. split.
    + by eapply positiveQuantities_lookup.
    + by repeat constructor.
  - rewrite (addProductToCart_without_cart _ _ _ _ Hcart).
    destruct (createFaulty db); [done|].
    destruct (productOf db productId); simpl.
    + apply positiveQuantities_save; [|by repeat constructor].
      by apply positiveQuantities_save.
    + by apply positiveQuantities_save.
Qed.

Lemma updateProductInCart_positiveQuantities
    (db : Db) (user : User.t) (productId : string) (quantity : Z) :
  positiveQuantities db → 0 < quantity →
  positiveQuantities (updateProductInCart user productId quantity db).1.
Proof.
  intros Hdb Hq. run.
  destruct (carts db !! User.email user) as [items|] eqn:Hcart; simpl; [|done].
  destruct (productOf db productId); [|done].
  destruct (findIndex (isProduct productId) items =? -1); [done|]. simpl.
  apply positiveQuantities_save; [done|].
  apply Forall_alter; [by eapply positiveQuantities_lookup|done].
Qed.

Lemma deleteProductFromCart_positiveQuantities
    (db : Db) (user : User.t) (productId : string) :
  positiveQuantities db →
  positiveQuantities (deleteProductFromCart user productId db).1.
Proof.
  intros Hdb. run.
  destruct (carts db !! User.email user) as [items|] eqn:Hcart; simpl; [|done].
  destruct (findIndex (isProduct productId) items =? -1); [done|]. simpl.
  apply positiveQuantities_save; [done|].
  unfold splice1. apply Forall_delete. by eapply positiveQuantities_lookup.
Qed.

Lemma checkout_positiveQuantities (config : Config) (db : Db) (user : User.t) :
  positiveQuantities db →
  positiveQuantities (checkout config user db).1.
Proof.
  intros Hdb. rewrite checkout_eq.
  destruct (carts db !! User.email user) as [items|]; [|done].
  destruct (length items =? 0)%nat; [done|].
  destruct (negb _); [done|].
  destruct (_ >? _); [done|]. simpl.
  by apply positiveQuantities_save.
Qed.

(** C9 as stated fails: the service accepts every quantity.  Adding a widget
    with quantity 0 to Alice's cart succeeds and persists a line whose
    quantity is not above zero, and updating a line to -2 does the same. *)
Lemma positiveQuantities_counterexample :
  positiveQuantities dbNoCart ∧
  addProductToCart alice "p1" 0 dbNoCart =
    (shop [(User.email alice, [line widget 0])] [widget; gadget],
     Ok (Cart.mk (User.email alice) [line widget 0])) ∧
  ¬ positiveQuantities (addProductToCart alice "p1" 0 dbNoCart).1 ∧
  positiveQuantities dbThree ∧
  (updateProductInCart alice "p1" (-2) dbThree).2 =
    Ok (Cart.mk (User.email alice) [line widget (-2)]) ∧
  ¬ positiveQuantities (updateProductInCart alice "p1" (-2) dbThree).1.
Proof.
  assert (Hbad : ∀ db q, q ≤ 0 →
    carts db !! User.email alice = Some [line widget q] → ¬ positiveQuantities db).
  { intros db q Hq Hcart Hdb.
    pose proof (positiveQuantities_lookup _ _ _ Hdb Hcart) as Hall.
    apply Forall_cons in Hall as [Hpos _]. simpl in Hpos. lia. }
  split; [apply map_Forall_empty|].
  split; [reflexivity|].
  split; [by apply (Hbad _ 0)|].
  split.
  { apply map_Forall_insert_2; [|apply map_Forall_empty].
    repeat constructor. }
  split; [reflexivity|].
  by apply (Hbad _ (-2)).
Qed.

(** C9, as amended: in a database where every line of every cart has a
    quantity above zero, each operation of the service leaves such a database
    behind, [addProductToCart] and [updateProductInCart] provided that the
    quantity they are given is above zero. *)
Theorem positiveQuantities_preserved
    (config : Config) (db : Db) (user : User.t) (productId : string) (quantity : Z) :
  positiveQuantities db →
  (0 < quantity → positiveQuantities (addProductToCart user productId quantity db).1) ∧
  (0 < quantity →
   positiveQuantities (updateProductInCart user productId quantity db).1) ∧
  positiveQuantities (deleteProductFromCart user productId db).1 ∧
  positiveQuantities (checkout config user db).1.
Proof.
  intros Hdb. repeat split.
  - by apply addProductToCart_positiveQuantities.
  - by apply updateProductInCart_positiveQuantities.
  - by apply deleteProductFromCart_positiveQuantities.
  - by apply checkout_positiveQuantities.
Qed.

Lemma positiveQuantities_preserved_witness :
  positiveQuantities dbTwoLines ∧
  0 < 4 ∧
  positiveQuantities (addProductToCart alice "p2" 4 dbThree).1 ∧
  positiveQuantities (updateProductInCart alice "p2" 4 dbTwoLines).1 ∧
  positiveQuantities (deleteProductFromCart alice "p2" dbTwoLines).1 ∧
  positiveQuantities (checkout sampleConfig alice dbTwoLines).1.
Proof.
  assert (H3 : positiveQuantities dbThree).
  { apply map_Forall_insert_2; [|apply map_Forall_empty]. by repeat constructor. }
  assert (H2 : positiveQuantities dbTwoLines).
  { apply map_Forall_insert_2; [|apply map_Forall_empty]. by repeat constructor. }
  assert (Hq : 0 < 4) by reflexivity.
  split; [exact H2|]. split; [exact Hq|].
  destruct (positiveQuantities_preserved sampleConfig dbThree alice "p2" 4 H3)
    as (Hadd & _).
  destruct (positiveQuantities_preserved sampleConfig dbTwoLines alice "p2" 4 H2)
    as (_ & Hupd & Hdel & Hout).
  split; [exact (Hadd Hq)|]. split; [exact (Hupd Hq)|].
  split; [exact Hdel|exact Hout].
Defined.

Lemma productOf_id (db : Db) (productId : string) (product : Product.t) :
  productOf db productId = Some product → Product._id product = productId.
Proof.
  unfold productOf. intros H. apply find_some in H as [_ H].
  by apply String.eqb_eq.
Qed.

Lemma uniqueProducts_push
    (items : list CartItem.t) (product : Product.t) (quantity : Z) :
  uniqueProducts items →
  some (isProduct (Product._id product)) items = false →
  uniqueProducts (push items (line product quantity)).
Proof.
  unfold uniqueProducts, push. intros Hnd Hnew.
  rewrite fmap_app. apply NoDup_app. split; [done|].
  split; [|apply NoDup_singleton].
  intros id Hid Hin. simpl in Hin. apply list_elem_of_singleton in Hin. subst id.
  apply list_elem_of_fmap in Hid as (item & Heq & Hitem).
  apply not_inCart_some in Hnew. apply Hnew. by exists item.
Qed.

Lemma uniqueCarts_save (db : Db) (email : string) (items : list CartItem.t) :
  uniqueCarts db → uniqueProducts items →
  uniqueCarts (set_carts <[email := items]> db).
Proof. intros Hdb Hitems. unfold uniqueCarts. simpl. by apply map_Forall_insert_2. Qed.

(** The data-model invariant "no two lines of a cart for one product" is
    kept by every operation of the service. *)
Lemma uniqueCarts_preserved
    (config : Config) (db : Db) (user : User.t) (productId : string) (quantity : Z) :
  uniqueCarts db →
  uniqueCarts (addProductToCart user productId quantity db).1 ∧
  uniqueCarts (updateProductInCart user productId quantity db).1 ∧
  uniqueCarts (deleteProductFromCart user productId db).1 ∧
  uniqueCarts (checkout config user db).1.
Proof.
  intros Hdb. repeat split.
  - destruct (carts db !! User.email user) as [items|] eqn:Hcart.
    + rewrite (addProductToCart_with_cart _ _ _ _ _ Hcart).
      destruct (some _ items) eqn:Hsome; [done|].
      destruct (productOf db productId) as [product|] eqn:Hprod; [|done]. simpl.
      apply uniqueCarts_save; [done|].
      apply uniqueProducts_push; [exact (Hdb _ _ Hcart)|].
      by rewrite (productOf_id _ _ _ Hprod).
    + rewrite (addProductToCart_without_cart _ _ _ _ Hcart).
      destruct (createFaulty db); [done|].
      destruct (productOf db productId); simpl.
      * apply uniqueCarts_save; [|apply NoDup_singleton].
        apply uniqueCarts_save; [done|apply NoDup_nil_2].
      * apply uniqueCarts_save; [done|apply NoDup_nil_2].
  - run. destruct (carts db !! User.email user) as [items|] eqn:Hcart; simpl; [|done].
    destruct (productOf db productId); [|done].
    destruct (findIndex (isProduct productId) items =? -1); [done|]. simpl.
    apply uniqueCarts_save; [done|]. unfold uniqueProducts.
    rewrite (list_fmap_alter _ _ id); [|by apply Forall_true].
    rewrite list_alter_id by done. exact (Hdb _ _ Hcart).
  - run. destruct (carts db !! User.email user) as [items|] eqn:Hcart; simpl; [|done].
    destruct (findIndex (isProduct productId) items =? -1); [done|]. simpl.
    apply uniqueCarts_save; [done|]. unfold uniqueProducts, splice1.
    rewrite list_fmap_delete.
    eapply sublist_NoDup; [exact (Hdb _ _ Hcart)|apply sublist_delete].
  - rewrite checkout_eq.
    destruct (carts db !! User.email user) as [items|]; [|done].
    destruct (length items =? 0)%nat; [done|].
    destruct (negb _); [done|].
    destruct (_ >? _); [done|]. simpl.
    apply uniqueCarts_save; [done|apply NoDup_nil_2].
Qed.

(** Adding the same product a second time: the second call throws and the
    cart keeps the single line the first call pushed. *)
Lemma addProductToCart_twice
    (db db1 : Db) (user : User.t) (productId : string) (q1 q2 : Z) (cart : Cart.t) :
  uniqueCarts db →
  addProductToCart user productId q1 db = (db1, Ok cart) →
  addProductToCart user productId q2 db1 = (db1, Throw alreadyInCart) ∧
  carts db1 !! User.email user = Some (Cart.cartItems cart) ∧
  ∃ product,
    filter (λ it, Product._id (CartItem.product it) = productId)
      (Cart.cartItems cart) = [line product q1].
Proof.
  intros Hdb Hadd.
  pose proof (uniqueCarts_preserved sampleConfig db user productId q1 Hdb) as [Hu _].
  rewrite Hadd in Hu. simpl in Hu.
  assert (∃ product before,
    productOf db productId = Some product ∧
    Cart.cartItems cart = before ++ [line product q1] ∧
    carts db1 !! User.email user = Some (Cart.cartItems cart))
    as (product & before & Hprod & Hitems & Hcart1).
  { destruct (carts db !! User.email user) as [items|] eqn:Hcart.
    - rewrite (addProductToCart_with_cart _ _ _ _ _ Hcart) in Hadd.
      destruct (some _ items); [done|].
      destruct (productOf db productId) as [product|]; [|done].
      inversion Hadd; subst. exists product, items. simpl.
      by rewrite lookup_insert_eq.
    - rewrite (addProductToCart_without_cart _ _ _ _ Hcart) in Hadd.
      destruct (createFaulty db); [done|].
      destruct (productOf db productId) as [product|]; [|done].
      inversion Hadd; subst. exists product, []. simpl.
      by rewrite lookup_insert_eq. }
  pose proof (productOf_id _ _ _ Hprod) as Hid.
  assert (Hin : line product q1 ∈ Cart.cartItems cart).
  { rewrite Hitems. apply elem_of_app. right. apply elem_of_cons. by left. }
  split; [|split; [done|]].
  - rewrite (addProductToCart_with_cart _ _ _ _ _ Hcart1).
    assert (Hsome : some (isProduct productId) (Cart.cartItems cart) = true).
    { apply inCart_some. by exists (line product q1). }
    by rewrite Hsome.
  - exists product. rewrite <- Hid.
    apply (uniqueProducts_filter _ (line product q1)); [|done].
    exact (Hu _ _ Hcart1).
Qed.

(** * Further properties of the cart service *)

(** ** What the guarded operations return *)

(** What [updateProductInCart] returns, guard by guard. *)
Lemma updateProductInCart_eq
    (db : Db) (user : User.t) (productId : string) (quantity : Z) :
  updateProductInCart user productId quantity db =
  match carts db !! User.email user with
  | None =>
      (db, Throw (BadRequest
         "User does not have a cart. Use POST to create cart and add a product"))
  | Some items =>
      match productOf db productId with
      | None => (db, Throw (BadRequest "Product doesn't exist in database"))
      | Some _ =>
          if some (isProduct productId) items then
            let items' :=
              alter (withQuantity quantity)
                (Z.to_nat (findIndex (isProduct productId) items)) items in
            (set_carts <[User.email user := items']> db,
             Ok (Cart.mk (User.email user) items'))
          else (db, Throw (BadRequest "Product not in cart"))
      end
  end.
Proof.
  run. destruct (carts db !! User.email user) as [items|]; simpl; [|done].
  destruct (productOf db productId); [|done].
  destruct (Z.eqb_spec (findIndex (isProduct productId) items) (-1)) as [E|E].
  - apply findIndex_none in E. by rewrite E.
  - destruct (some (isProduct productId) items) eqn:Hs; [done|].
    apply findIndex_none in Hs. done.
Qed.

(** What [deleteProductFromCart] returns, guard by guard. *)
Lemma deleteProductFromCart_eq (db : Db) (user : User.t) (productId : string) :
  deleteProductFromCart user productId db =
  match carts db !! User.email user with
  | None => (db, Throw (BadRequest "User does not have a cart."))
  | Some items =>
      if some (isProduct productId) items then
        (set_carts
           <[User.email user :=
               splice1 (findIndex (isProduct productId) items) items]> db,
         Ok ())
      else (db, Throw (BadRequest "Product not in cart"))
  end.
Proof.
  run. destruct (carts db !! User.email user) as [items|]; simpl; [|done].
  destruct (Z.eqb_spec (findIndex (isProduct productId) items) (-1)) as [E|E].
  - apply findIndex_none in E. by rewrite E.
  - destruct (some (isProduct productId) items) eqn:Hs; [done|].
    apply findIndex_none in Hs. done.
Qed.

(** Where [findIndex] points in a cart split around its first line for
    [productId]. *)
Lemma findIndex_split
    (productId : string) (before after : list CartItem.t) (item : CartItem.t) :
  Forall (λ it, Product._id (CartItem.product it) ≠ productId) before →
  Product._id (CartItem.product item) = productId →
  Z.to_nat (findIndex (isProduct productId) (before ++ item :: after)) =
    length before ∧
  some (isProduct productId) (before ++ item :: after) = true.
Proof.
  intros Hbefore Hitem.
  assert (Hin : inCart productId (before ++ item :: after)).
  { exists item. split; [|done]. apply elem_of_app. right. apply elem_of_cons. by left. }
  split; [|by apply inCart_some].
  induction Hbefore as [|x before Hx Hbefore IH]; simpl.
  - apply isProduct_true in Hitem. by rewrite Hitem.
  - destruct (isProduct productId x) eqn:Ex.
    { apply isProduct_true in Ex. done. }
    assert (Hin' : inCart productId (before ++ item :: after)).
    { exists item. split; [|done]. apply elem_of_app. right. apply elem_of_cons. by left. }
    specialize (IH Hin').
    pose proof (findIndex_lower (isProduct productId) (before ++ item :: after)).
    destruct (Z.eqb_spec (findIndex (isProduct productId) (before ++ item :: after)) (-1))
      as [E|E].
    + apply findIndex_none in E. apply inCart_some in Hin'. congruence.
    + lia.
Qed.

(** ** Adding a product: the remaining paths *)

(** X1: when [productId] resolves to a Product that the user's cart does not
    hold yet (and the cart creation, needed when there is no cart, does not
    fail), [addProductToCart] returns and persists the user's cart with one
    more line at the end: the Product document found, with the quantity
    given.  The lines already there are kept in order, and neither the
    products nor the users collection is written. *)
Theorem addProductToCart_appends_snapshot
    (db : Db) (user : User.t) (productId : string) (quantity : Z)
    (product : Product.t) :
  productOf db productId = Some product →
  ¬ inCart productId (linesOf db (User.email user)) →
  (carts db !! User.email user = None → createFaulty db = false) →
  ∃ db',
    addProductToCart user productId quantity db =
      (db', Ok (Cart.mk (User.email user)
                  (linesOf db (User.email user) ++ [line product quantity]))) ∧
    carts db' =
      <[User.email user := linesOf db (User.email user) ++ [line product quantity]]>
        (carts db) ∧
    Product._id product = productId ∧
    products db' = products db ∧
    users db' = users db.
Proof.
  intros Hprod Hnew Hcreate. unfold linesOf in *.
  pose proof (productOf_id _ _ _ Hprod) as Hid.
  destruct (carts db !! User.email user) as [items|] eqn:Hcart; simpl in *.
  - rewrite (addProductToCart_with_cart _ _ _ _ _ Hcart).
    apply not_inCart_some in Hnew. rewrite Hnew, Hprod.
    eexists. split; [reflexivity|]. done.
  - rewrite (addProductToCart_without_cart _ _ _ _ Hcart).
    rewrite Hcreate, Hprod by done.
    eexists. split; [reflexivity|]. simpl.
    by rewrite insert_insert_eq.
Qed.

Lemma addProductToCart_appends_snapshot_witness :
  productOf dbThree "p1" = Some widget ∧
  ¬ inCart "p1" (linesOf dbThree (User.email bob)) ∧
  (carts dbThree !! User.email bob = None → createFaulty dbThree = false) ∧
  ∃ db',
    addProductToCart bob "p1" 2 dbThree =
      (db', Ok (Cart.mk (User.email bob)
                  (linesOf dbThree (User.email bob) ++ [line widget 2]))) ∧
    carts db' =
      <[User.email bob := linesOf dbThree (User.email bob) ++ [line widget 2]]>
        (carts dbThree) ∧
    Product._id widget = "p1" ∧
    products db' = products dbThree ∧
    users db' = users dbThree.
Proof.
  assert (H1 : productOf dbThree "p1" = Some widget) by reflexivity.
  assert (H2 : ¬ inCart "p1" (linesOf dbThree (User.email bob))).
  { intros (item & Hin & _). vm_compute in Hin. by apply elem_of_nil in Hin. }
  assert (H3 : carts dbThree !! User.email bob = None → createFaulty dbThree = false)
    by reflexivity.
  split; [exact H1|]. split; [exact H2|]. split; [exact H3|].
  exact (addProductToCart_appends_snapshot dbThree bob "p1" 2 widget H1 H2 H3).
Defined.

(** X2: the outcome of [addProductToCart] is decided by three facts, in this
    order.  It throws 500 "Cart creation failed" exactly when the user has
    no cart and the creation fails; 400 "Product already in cart..." exactly
    when the cart holds a line for [productId]; 400 "Product doesn't exist in
    database" exactly when neither is the case and [productId] resolves to
    no Product; and it returns a cart exactly when neither is the case and
    [productId] resolves to a Product. *)
Theorem addProductToCart_outcome
    (db : Db) (user : User.t) (productId : string) (quantity : Z) :
  ((addProductToCart user productId quantity db).2 =
     Throw (InternalError "Cart creation failed")
   ↔ carts db !! User.email user = None ∧ createFaulty db = true) ∧
  ((addProductToCart user productId quantity db).2 = Throw alreadyInCart
   ↔ inCart productId (linesOf db (User.email user))) ∧
  ((addProductToCart user productId quantity db).2 =
     Throw (BadRequest "Product doesn't exist in database")
   ↔ ¬ (carts db !! User.email user = None ∧ createFaulty db = true) ∧
     ¬ inCart productId (linesOf db (User.email user)) ∧
     productOf db productId = None) ∧
  ((∃ cart, (addProductToCart user productId quantity db).2 = Ok cart)
   ↔ ¬ (carts db !! User.email user = None ∧ createFaulty db = true) ∧
     ¬ inCart productId (linesOf db (User.email user)) ∧
     is_Some (productOf db productId)).
Proof.
  unfold linesOf.
  destruct (carts db !! User.email user) as [items|] eqn:Hcart; simpl.
  - rewrite (addProductToCart_with_cart _ _ _ _ _ Hcart).
    rewrite (inCart_some productId items).
    destruct (some (isProduct productId) items); simpl; [decide_outcome|].
    destruct (productOf db productId) as [product|]; simpl; decide_outcome.
  - rewrite (addProductToCart_without_cart _ _ _ _ Hcart).
    assert (Hnil : ¬ inCart productId []).
    { intros (item & Hin & _). by apply elem_of_nil in Hin. }
    destruct (createFaulty db); simpl; [decide_outcome|].
    destruct (productOf db productId) as [product|]; simpl; decide_outcome.
Qed.

(** X3: whatever [addProductToCart] answers, it only ever appends: the lines
    the user's cart had before the call are the first lines of the cart after
    it, followed by at most one new line, and the new line is there exactly
    when the call returned a cart. *)
Theorem addProductToCart_keeps_existing_lines
    (db : Db) (user : User.t) (productId : string) (quantity : Z) :
  ∃ suffix,
    linesOf (addProductToCart user productId quantity db).1 (User.email user) =
      linesOf db (User.email user) ++ suffix ∧
    (length suffix ≤ 1)%nat ∧
    (suffix ≠ [] ↔ ∃ cart, (addProductToCart user productId quantity db).2 = Ok cart).
Proof.
  unfold linesOf.
  destruct (carts db !! User.email user) as [items|] eqn:Hcart; simpl.
  - rewrite (addProductToCart_with_cart _ _ _ _ _ Hcart).
    destruct (some (isProduct productId) items); simpl.
    { exists []. rewrite Hcart, app_nil_r. simpl. decide_outcome. }
    destruct (productOf db productId) as [product|]; simpl.
    + exists [line product quantity]. rewrite lookup_insert_eq. simpl.
      decide_outcome.
    + exists []. rewrite Hcart, app_nil_r. simpl. decide_outcome.
  - rewrite (addProductToCart_without_cart _ _ _ _ Hcart).
    destruct (createFaulty db); simpl.
    { exists []. rewrite Hcart. simpl. decide_outcome. }
    destruct (productOf db productId) as [product|]; simpl.
    + exists [line product quantity]. rewrite lookup_insert_eq. simpl.
      decide_outcome.
    + exists []. rewrite lookup_insert_eq. simpl. decide_outcome.
Qed.

(** ** What the service never touches *)

Lemma addProductToCart_frame
    (db : Db) (user : User.t) (productId : string) (quantity : Z) :
  products (addProductToCart user productId quantity db).1 = products db ∧
  users (addProductToCart user productId quantity db).1 = users db ∧
  ∀ email, email ≠ User.email user →
    carts (addProductToCart user productId quantity db).1 !! email =
      carts db !! email.
Proof.
  destruct (carts db !! User.email user) as [items|] eqn:Hcart.
  - rewrite (addProductToCart_with_cart _ _ _ _ _ Hcart).
    destruct (some _ items); [done|].
    destruct (productOf db productId); [|done]. simpl.
    repeat split. intros email Hne. by rewrite lookup_insert_ne.
  - rewrite (addProductToCart_without_cart _ _ _ _ Hcart).
    destruct (createFaulty db); [done|].
    destruct (productOf db productId); simpl; repeat split;
      intros email Hne; by rewrite !lookup_insert_ne.
Qed.

Lemma updateProductInCart_frame
    (db : Db) (user : User.t) (productId : string) (quantity : Z) :
  products (updateProductInCart user productId quantity db).1 = products db ∧
  users (updateProductInCart user productId quantity db).1 = users db ∧
  ∀ email, email ≠ User.email user →
    carts (updateProductInCart user productId quantity db).1 !! email =
      carts db !! email.
Proof.
  rewrite updateProductInCart_eq.
  destruct (carts db !! User.email user) as [items|]; [|done].
  destruct (productOf db productId); [|done].
  destruct (some _ items); [|done]. simpl.
  repeat split. intros email Hne. by rewrite lookup_insert_ne.
Qed.

Lemma deleteProductFromCart_frame (db : Db) (user : User.t) (productId : string) :
  products (deleteProductFromCart user productId db).1 = products db ∧
  users (deleteProductFromCart user productId db).1 = users db ∧
  ∀ email, email ≠ User.email user →
    carts (deleteProductFromCart user productId db).1 !! email = carts db !! email.
Proof.
  rewrite deleteProductFromCart_eq.
  destruct (carts db !! User.email user) as [items|]; [|done].
  destruct (some _ items); [|done]. simpl.
  repeat split. intros email Hne. by rewrite lookup_insert_ne.
Qed.

Lemma checkout_frame (config : Config) (db : Db) (user : User.t) :
  products (checkout config user db).1 = products db ∧
  ∀ email, email ≠ User.email user →
    carts (checkout config user db).1 !! email = carts db !! email ∧
    users (checkout config user db).1 !! email = users db !! email.
Proof.
  rewrite checkout_eq.
  destruct (carts db !! User.email user) as [items|]; [|done].
  destruct (length items =? 0)%nat; [done|].
  destruct (negb _); [done|].
  destruct (_ >? _); [done|]. simpl.
  repeat split; by rewrite lookup_insert_ne.
Qed.

(** X4: a call on behalf of one user leaves every other user alone: for
    each of the four writing operations, the cart and the user document of
    every other email are after the call what they were before it, whether
    the call returned or threw. *)
Theorem service_isolates_users
    (config : Config) (db : Db) (user : User.t) (productId : string)
    (quantity : Z) (email : string) :
  email ≠ User.email user →
  (carts (addProductToCart user productId quantity db).1 !! email = carts db !! email ∧
   users (addProductToCart user productId quantity db).1 !! email = users db !! email) ∧
  (carts (updateProductInCart user productId quantity db).1 !! email = carts db !! email ∧
   users (updateProductInCart user productId quantity db).1 !! email = users db !! email) ∧
  (carts (deleteProductFromCart user productId db).1 !! email = carts db !! email ∧
   users (deleteProductFromCart user productId db).1 !! email = users db !! email) ∧
  (carts (checkout config user db).1 !! email = carts db !! email ∧
   users (checkout config user db).1 !! email = users db !! email).
Proof.
  intros Hne.
  destruct (addProductToCart_frame db user productId quantity) as (_ & Hu1 & Hc1).
  destruct (updateProductInCart_frame db user productId quantity) as (_ & Hu2 & Hc2).
  destruct (deleteProductFromCart_frame db user productId) as (_ & Hu3 & Hc3).
  destruct (checkout_frame config db user) as (_ & H4).
  rewrite Hu1, Hu2, Hu3. repeat split; auto; by apply H4.
Qed.

Lemma service_isolates_users_witness :
  User.email bob ≠ User.email alice ∧
  (carts (addProductToCart alice "p2" 1 dbBob).1 !! User.email bob =
     carts dbBob !! User.email bob ∧
   users (addProductToCart alice "p2" 1 dbBob).1 !! User.email bob =
     users dbBob !! User.email bob) ∧
  (carts (updateProductInCart alice "p2" 1 dbBob).1 !! User.email bob =
     carts dbBob !! User.email bob ∧
   users (updateProductInCart alice "p2" 1 dbBob).1 !! User.email bob =
     users dbBob !! User.email bob) ∧
  (carts (deleteProductFromCart alice "p2" dbBob).1 !! User.email bob =
     carts dbBob !! User.email bob ∧
   users (deleteProductFromCart alice "p2" dbBob).1 !! User.email bob =
     users dbBob !! User.email bob) ∧
  (carts (checkout sampleConfig alice dbBob).1 !! User.email bob =
     carts dbBob !! User.email bob ∧
   users (checkout sampleConfig alice dbBob).1 !! User.email bob =
     users dbBob !! User.email bob).
Proof.
  assert (H : User.email bob ≠ User.email alice) by discriminate.
  split; [exact H|].
  exact (service_isolates_users sampleConfig dbBob alice "p2" 1 (User.email bob) H).
Defined.

(** X5: the service never writes the products collection, and of its
    operations only [checkout] writes a user document: adding, updating and
    deleting leave the whole users collection as it was, and [getCartByUser]
    leaves the whole database as it was. *)
Theorem service_writes_only_carts_and_the_wallet
    (config : Config) (db : Db) (user : User.t) (productId : string) (quantity : Z) :
  (getCartByUser user db).1 = db ∧
  (products (addProductToCart user productId quantity db).1 = products db ∧
   users (addProductToCart user productId quantity db).1 = users db) ∧
  (products (updateProductInCart user productId quantity db).1 = products db ∧
   users (updateProductInCart user productId quantity db).1 = users db) ∧
  (products (deleteProductFromCart user productId db).1 = products db ∧
   users (deleteProductFromCart user productId db).1 = users db) ∧
  products (checkout config user db).1 = products db.
Proof.
  destruct (addProductToCart_frame db user productId quantity) as (Hp1 & Hu1 & _).
  destruct (updateProductInCart_frame db user productId quantity) as (Hp2 & Hu2 & _).
  destruct (deleteProductFromCart_frame db user productId) as (Hp3 & Hu3 & _).
  destruct (checkout_frame config db user) as (Hp4 & _).
  rewrite getCartByUser_eq.
  split; [by destruct (carts db !! User.email user)|]. done.
Qed.

(** ** Updating and deleting: the remaining paths *)

(** X6: the outcome of [updateProductInCart] is decided by three guards, in
    this order: no cart; [productId] resolving to no Product, which is
    checked before the cart is searched and so also rejects a product that
    is still in the cart; no line for [productId] in the cart.  It returns a
    cart exactly when all three pass. *)
Theorem updateProductInCart_outcome
    (db : Db) (user : User.t) (productId : string) (quantity : Z) :
  ((updateProductInCart user productId quantity db).2 =
     Throw (BadRequest
       "User does not have a cart. Use POST to create cart and add a product")
   ↔ carts db !! User.email user = None) ∧
  ((updateProductInCart user productId quantity db).2 =
     Throw (BadRequest "Product doesn't exist in database")
   ↔ is_Some (carts db !! User.email user) ∧ productOf db productId = None) ∧
  ((updateProductInCart user productId quantity db).2 =
     Throw (BadRequest "Product not in cart")
   ↔ is_Some (carts db !! User.email user) ∧ is_Some (productOf db productId) ∧
     ¬ inCart productId (linesOf db (User.email user))) ∧
  ((∃ cart, (updateProductInCart user productId quantity db).2 = Ok cart)
   ↔ is_Some (carts db !! User.email user) ∧ is_Some (productOf db productId) ∧
     inCart productId (linesOf db (User.email user))).
Proof.
  rewrite updateProductInCart_eq. unfold linesOf.
  destruct (carts db !! User.email user) as [items|]; simpl; [|decide_outcome].
  destruct (productOf db productId) as [product|]; simpl; [|decide_outcome].
  rewrite (inCart_some productId items).
  destruct (some (isProduct productId) items); simpl; decide_outcome.
Qed.

(** X7: the outcome of [deleteProductFromCart] is decided by two guards: no
    cart, then no line for [productId] in the cart.  The products collection
    is not consulted: a line can be deleted whether or not its product still
    exists. *)
Theorem deleteProductFromCart_outcome
    (db : Db) (user : User.t) (productId : string) :
  ((deleteProductFromCart user productId db).2 =
     Throw (BadRequest "User does not have a cart.")
   ↔ carts db !! User.email user = None) ∧
  ((deleteProductFromCart user productId db).2 =
     Throw (BadRequest "Product not in cart")
   ↔ is_Some (carts db !! User.email user) ∧
     ¬ inCart productId (linesOf db (User.email user))) ∧
  ((deleteProductFromCart user productId db).2 = Ok ()
   ↔ inCart productId (linesOf db (User.email user))) ∧
  (∀ ps, (deleteProductFromCart user productId (set_products ps db)).2 =
         (deleteProductFromCart user productId db).2).
Proof.
  split_and!; [| | |intros ps]; rewrite !deleteProductFromCart_eq; unfold linesOf;
    simpl.
  - destruct (carts db !! User.email user) as [items|]; simpl; [|decide_outcome].
    destruct (some (isProduct productId) items); simpl; decide_outcome.
  - destruct (carts db !! User.email user) as [items|]; simpl.
    + rewrite (inCart_some productId items).
      destruct (some (isProduct productId) items); simpl; decide_outcome.
    + decide_outcome.
  - destruct (carts db !! User.email user) as [items|]; simpl.
    + rewrite (inCart_some productId items).
      destruct (some (isProduct productId) items); simpl; decide_outcome.
    + split; [done|]. intros (item & Hin & _). by apply elem_of_nil in Hin.
  - destruct (carts db !! User.email user) as [items|]; simpl; [|done].
    by destruct (some (isProduct productId) items).
Qed.

(** X8: an [updateProductInCart] or a [deleteProductFromCart] that throws has
    written nothing: the database is the one the call started from. *)
Theorem update_and_delete_throw_without_writing
    (db : Db) (user : User.t) (productId : string) (quantity : Z) (e : ApiError) :
  ((updateProductInCart user productId quantity db).2 = Throw e →
   (updateProductInCart user productId quantity db).1 = db) ∧
  ((deleteProductFromCart user productId db).2 = Throw e →
   (deleteProductFromCart user productId db).1 = db).
Proof.
  rewrite updateProductInCart_eq, deleteProductFromCart_eq.
  destruct (carts db !! User.email user) as [items|]; simpl; [|done].
  destruct (some (isProduct productId) items); simpl.
  - split; [|done]. by destruct (productOf db productId).
  - split; [|done]. by destruct (productOf db productId).
Qed.

Lemma update_and_delete_throw_without_writing_witness :
  (updateProductInCart alice "p1" 4 dbWidgetGone).2 =
    Throw (BadRequest "Product doesn't exist in database") ∧
  (updateProductInCart alice "p1" 4 dbWidgetGone).1 = dbWidgetGone ∧
  (deleteProductFromCart alice "p2" dbWidgetGone).2 =
    Throw (BadRequest "Product not in cart") ∧
  (deleteProductFromCart alice "p2" dbWidgetGone).1 = dbWidgetGone.
Proof.
  assert (H1 : (updateProductInCart alice "p1" 4 dbWidgetGone).2 =
    Throw (BadRequest "Product doesn't exist in database")) by reflexivity.
  assert (H2 : (deleteProductFromCart alice "p2" dbWidgetGone).2 =
    Throw (BadRequest "Product not in cart")) by reflexivity.
  split; [exact H1|].
  split; [exact (proj1 (update_and_delete_throw_without_writing
                          dbWidgetGone alice "p1" 4 _) H1)|].
  split; [exact H2|].
  exact (proj2 (update_and_delete_throw_without_writing
                  dbWidgetGone alice "p2" 4 _) H2).
Defined.

(** ** The cart total, which checkout debits *)

Lemma sumLineCosts_app (l1 l2 : list CartItem.t) :
  sumLineCosts (l1 ++ l2) = sumLineCosts l1 + sumLineCosts l2.
Proof. induction l1 as [|x l1 IH]; simpl; [done|]. rewrite IH. lia. Qed.

(** What the update and the splice make of a cart holding [productId]. *)
Lemma first_line_rewritten (productId : string) (items : list CartItem.t) :
  inCart productId items →
  ∃ before item after,
    items = before ++ item :: after ∧
    Product._id (CartItem.product item) = productId ∧
    Forall (λ it, Product._id (CartItem.product it) ≠ productId) before ∧
    (∀ quantity,
       alter (withQuantity quantity)
         (Z.to_nat (findIndex (isProduct productId) items)) items =
       before ++ withQuantity quantity item :: after) ∧
    splice1 (findIndex (isProduct productId) items) items = before ++ after.
Proof.
  intros Hin.
  destruct (inCart_findIndex _ _ Hin)
    as (before & item & after & Hsplit & Hid & Hbefore & Hidx & Hlen).
  exists before, item, after. repeat split; auto.
  - intros quantity. rewrite Hlen, Hsplit.
    rewrite <- (Nat.add_0_r (length before)). by rewrite alter_app_r.
  - unfold splice1. rewrite Hlen, Hsplit. apply delete_middle.
Qed.

(** X9: a successful [addProductToCart] raises the cart total by the cost of
    the Product found times the quantity given. *)
Theorem addProductToCart_total
    (db db' : Db) (user : User.t) (productId : string) (quantity : Z)
    (cart : Cart.t) :
  addProductToCart user productId quantity db = (db', Ok cart) →
  ∃ product,
    productOf db productId = Some product ∧
    linesOf db' (User.email user) = Cart.cartItems cart ∧
    sumLineCosts (Cart.cartItems cart) =
      sumLineCosts (linesOf db (User.email user)) + Product.cost product * quantity.
Proof.
  unfold linesOf.
  destruct (carts db !! User.email user) as [items|] eqn:Hcart; simpl.
  - rewrite (addProductToCart_with_cart _ _ _ _ _ Hcart).
    destruct (some _ items); [done|].
    destruct (productOf db productId) as [product|]; [|done].
    intros H. inversion H; subst. exists product. simpl.
    rewrite lookup_insert_eq. simpl. split_and!; [done..|].
    unfold push. rewrite sumLineCosts_app. simpl. unfold lineCost. simpl. lia.
  - rewrite (addProductToCart_without_cart _ _ _ _ Hcart).
    destruct (createFaulty db); [done|].
    destruct (productOf db productId) as [product|]; [|done].
    intros H. inversion H; subst. exists product. simpl.
    rewrite lookup_insert_eq. simpl. split_and!; [done..|].
    unfold lineCost. simpl. lia.
Qed.

Lemma addProductToCart_total_witness :
  addProductToCart alice "p2" 2 dbNoCart =
    (shop [(User.email alice, [line gadget 2])] [widget; gadget],
     Ok (Cart.mk (User.email alice) [line gadget 2])) ∧
  ∃ product,
    productOf dbNoCart "p2" = Some product ∧
    linesOf (shop [(User.email alice, [line gadget 2])] [widget; gadget])
      (User.email alice) = [line gadget 2] ∧
    sumLineCosts [line gadget 2] =
      sumLineCosts (linesOf dbNoCart (User.email alice)) + Product.cost product * 2.
Proof.
  assert (H : addProductToCart alice "p2" 2 dbNoCart =
    (shop [(User.email alice, [line gadget 2])] [widget; gadget],
     Ok (Cart.mk (User.email alice) [line gadget 2]))) by reflexivity.
  split; [exact H|].
  exact (addProductToCart_total _ _ _ _ _ _ H).
Defined.

(** X10: a successful [updateProductInCart] changes the cart total by the
    cost in the updated line's own snapshot times the change of quantity;
    the cost the Product has in the collection at the time of the update
    plays no part. *)
Theorem updateProductInCart_total
    (db db' : Db) (user : User.t) (productId : string) (quantity : Z)
    (cart : Cart.t) :
  updateProductInCart user productId quantity db = (db', Ok cart) →
  ∃ item,
    item ∈ linesOf db (User.email user) ∧
    Product._id (CartItem.product item) = productId ∧
    linesOf db' (User.email user) = Cart.cartItems cart ∧
    sumLineCosts (Cart.cartItems cart) =
      sumLineCosts (linesOf db (User.email user)) +
      Product.cost (CartItem.product item) * (quantity - CartItem.quantity item).
Proof.
  rewrite updateProductInCart_eq. unfold linesOf.
  destruct (carts db !! User.email user) as [items|]; simpl; [|done].
  destruct (productOf db productId); [|done].
  destruct (some (isProduct productId) items) eqn:Hsome; [|done].
  apply inCart_some in Hsome.
  destruct (first_line_rewritten productId items Hsome)
    as (before & item & after & Hsplit & Hid & _ & Halter & _).
  simpl. rewrite Halter. intros H. inversion H; subst db' cart. simpl.
  rewrite lookup_insert_eq. simpl.
  exists item. split_and!; auto.
  - rewrite Hsplit. apply elem_of_app. right. apply elem_of_cons. by left.
  - rewrite Hsplit, !sumLineCosts_app. simpl. unfold lineCost. simpl. lia.
Qed.

Lemma updateProductInCart_total_witness :
  updateProductInCart alice "p1" 5 dbRepriced =
    (shop [(User.email alice, [line widget 5])] (products dbRepriced),
     Ok (Cart.mk (User.email alice) [line widget 5])) ∧
  ∃ item,
    item ∈ linesOf dbRepriced (User.email alice) ∧
    Product._id (CartItem.product item) = "p1" ∧
    linesOf (shop [(User.email alice, [line widget 5])] (products dbRepriced))
      (User.email alice) = [line widget 5] ∧
    sumLineCosts [line widget 5] =
      sumLineCosts (linesOf dbRepriced (User.email alice)) +
      Product.cost (CartItem.product item) * (5 - CartItem.quantity item).
Proof.
  assert (H : updateProductInCart alice "p1" 5 dbRepriced =
    (shop [(User.email alice, [line widget 5])] (products dbRepriced),
     Ok (Cart.mk (User.email alice) [line widget 5]))) by reflexivity.
  split; [exact H|].
  exact (updateProductInCart_total _ _ _ _ _ _ H).
Defined.

(** X11: a successful [deleteProductFromCart] lowers the cart total by the
    cost of the deleted line, snapshot cost times quantity. *)
Theorem deleteProductFromCart_total
    (db db' : Db) (user : User.t) (productId : string) :
  deleteProductFromCart user productId db = (db', Ok ()) →
  ∃ item,
    item ∈ linesOf db (User.email user) ∧
    Product._id (CartItem.product item) = productId ∧
    sumLineCosts (linesOf db' (User.email user)) =
      sumLineCosts (linesOf db (User.email user)) - lineCost item.
Proof.
  rewrite deleteProductFromCart_eq. unfold linesOf.
  destruct (carts db !! User.email user) as [items|]; simpl; [|done].
  destruct (some (isProduct productId) items) eqn:Hsome; [|done].
  apply inCart_some in Hsome.
  destruct (first_line_rewritten productId items Hsome)
    as (before & item & after & Hsplit & Hid & _ & _ & Hsplice).
  rewrite Hsplice. intros H. inversion H; subst db'. simpl.
  rewrite lookup_insert_eq. simpl.
  exists item. split_and!; auto.
  - rewrite Hsplit. apply elem_of_app. right. apply elem_of_cons. by left.
  - rewrite Hsplit, !sumLineCosts_app. simpl. lia.
Qed.

Lemma deleteProductFromCart_total_witness :
  deleteProductFromCart alice "p1" dbTwoLines =
    (shop [(User.email alice, [line gadget 2])] [widget; gadget], Ok ()) ∧
  ∃ item,
    item ∈ linesOf dbTwoLines (User.email alice) ∧
    Product._id (CartItem.product item) = "p1" ∧
    sumLineCosts
      (linesOf (shop [(User.email alice, [line gadget 2])] [widget; gadget])
         (User.email alice)) =
      sumLineCosts (linesOf dbTwoLines (User.email alice)) - lineCost item.
Proof.
  assert (H : deleteProductFromCart alice "p1" dbTwoLines =
    (shop [(User.email alice, [line gadget 2])] [widget; gadget], Ok ()))
    by reflexivity.
  split; [exact H|].
  exact (deleteProductFromCart_total _ _ _ _ H).
Defined.

(** ** How the operations compose *)

Lemma not_inCart_Forall (productId : string) (items : list CartItem.t) :
  ¬ inCart productId items ↔
  Forall (λ it, Product._id (CartItem.product it) ≠ productId) items.
Proof.
  rewrite Forall_forall. unfold inCart. split.
  - intros H item Hin Hid. apply H. by exists item.
  - intros H (item & Hin & Hid). by apply (H item).
Qed.

(** X12: after a successful [addProductToCart] or [updateProductInCart],
    [getCartByUser] returns exactly the cart that call returned, and writes
    nothing. *)
Theorem getCartByUser_reads_back_the_written_cart
    (db db' : Db) (user : User.t) (productId : string) (quantity : Z)
    (cart : Cart.t) :
  addProductToCart user productId quantity db = (db', Ok cart) ∨
  updateProductInCart user productId quantity db = (db', Ok cart) →
  getCartByUser user db' = (db', Ok cart).
Proof.
  rewrite getCartByUser_eq, updateProductInCart_eq.
  destruct (carts db !! User.email user) as [items|] eqn:Hcart.
  - rewrite (addProductToCart_with_cart _ _ _ _ _ Hcart).
    destruct (some (isProduct productId) items);
      destruct (productOf db productId);
      intros [H|H]; inversion H; subst; simpl; by rewrite lookup_insert_eq.
  - rewrite (addProductToCart_without_cart _ _ _ _ Hcart).
    destruct (createFaulty db); [by intros [H|H]|].
    destruct (productOf db productId); intros [H|H]; inversion H; subst; simpl.
    by rewrite lookup_insert_eq.
Qed.

Lemma getCartByUser_reads_back_the_written_cart_witness :
  (addProductToCart alice "p2" 2 dbNoCart =
     (shop [(User.email alice, [line gadget 2])] [widget; gadget],
      Ok (Cart.mk (User.email alice) [line gadget 2])) ∨
   updateProductInCart alice "p2" 2 dbNoCart =
     (shop [(User.email alice, [line gadget 2])] [widget; gadget],
      Ok (Cart.mk (User.email alice) [line gadget 2]))) ∧
  getCartByUser alice (shop [(User.email alice, [line gadget 2])] [widget; gadget]) =
    (shop [(User.email alice, [line gadget 2])] [widget; gadget],
     Ok (Cart.mk (User.email alice) [line gadget 2])).
Proof.
  assert (H : addProductToCart alice "p2" 2 dbNoCart =
     (shop [(User.email alice, [line gadget 2])] [widget; gadget],
      Ok (Cart.mk (User.email alice) [line gadget 2])) ∨
   updateProductInCart alice "p2" 2 dbNoCart =
     (shop [(User.email alice, [line gadget 2])] [widget; gadget],
      Ok (Cart.mk (User.email alice) [line gadget 2]))) by (left; reflexivity).
  split; [exact H|].
  exact (getCartByUser_reads_back_the_written_cart _ _ _ _ _ _ H).
Defined.

(** X13: the quantity of a line is the one of the last successful update:
    after an [updateProductInCart] that succeeded, a second one for the same
    product answers and leaves the database exactly as if the first had
    never been made. *)
Theorem updateProductInCart_last_write_wins
    (db db1 : Db) (user : User.t) (productId : string) (q1 q2 : Z) (cart1 : Cart.t) :
  updateProductInCart user productId q1 db = (db1, Ok cart1) →
  updateProductInCart user productId q2 db1 =
    updateProductInCart user productId q2 db.
Proof.
  rewrite !updateProductInCart_eq.
  destruct (carts db !! User.email user) as [items|] eqn:Hcart; simpl; [|done].
  destruct (productOf db productId) as [product|] eqn:Hprod; [|done].
  destruct (some (isProduct productId) items) eqn:Hsome; [|done].
  apply inCart_some in Hsome.
  destruct (first_line_rewritten productId items Hsome)
    as (before & item & after & Hsplit & Hid & Hbefore & Halter & _).
  rewrite !Halter. intros H. inversion H; subst db1 cart1. simpl.
  rewrite lookup_insert_eq.
  assert (Hprod1 : productOf
    (set_carts <[User.email user := before ++ withQuantity q1 item :: after]> db)
    productId = Some product) by exact Hprod.
  rewrite Hprod1.
  destruct (findIndex_split productId before after (withQuantity q1 item) Hbefore Hid)
    as [Hidx Hsome1].
  rewrite Hsome1, Hidx.
  rewrite <- (Nat.add_0_r (length before)), alter_app_r. simpl.
  unfold set_carts. simpl. by rewrite insert_insert_eq.
Qed.

Lemma updateProductInCart_last_write_wins_witness :
  updateProductInCart alice "p2" 9 dbTwoLines =
    (shop [(User.email alice, [line widget 3; line gadget 9])] [widget; gadget],
     Ok (Cart.mk (User.email alice) [line widget 3; line gadget 9])) ∧
  updateProductInCart alice "p2" 1
    (shop [(User.email alice, [line widget 3; line gadget 9])] [widget; gadget]) =
    updateProductInCart alice "p2" 1 dbTwoLines.
Proof.
  assert (H : updateProductInCart alice "p2" 9 dbTwoLines =
    (shop [(User.email alice, [line widget 3; line gadget 9])] [widget; gadget],
     Ok (Cart.mk (User.email alice) [line widget 3; line gadget 9])))
    by reflexivity.
  split; [exact H|].
  exact (updateProductInCart_last_write_wins _ _ _ _ _ _ _ H).
Defined.

(** X14: deleting the product just added undoes the addition: after a
    successful [addProductToCart], [deleteProductFromCart] for the same
    product succeeds and the user's cart has the lines it had before the
    addition; if the user had a cart before, the whole database is back to
    what it was. *)
Theorem add_then_delete_restores_the_cart
    (db db1 : Db) (user : User.t) (productId : string) (quantity : Z)
    (cart : Cart.t) :
  addProductToCart user productId quantity db = (db1, Ok cart) →
  ∃ db2,
    deleteProductFromCart user productId db1 = (db2, Ok ()) ∧
    carts db2 !! User.email user = Some (linesOf db (User.email user)) ∧
    (is_Some (carts db !! User.email user) → db2 = db).
Proof.
  intros Hadd.
  assert (∃ product,
    productOf db productId = Some product ∧
    ¬ inCart productId (linesOf db (User.email user)) ∧
    carts db1 = <[User.email user :=
                    linesOf db (User.email user) ++ [line product quantity]]> (carts db) ∧
    products db1 = products db ∧ users db1 = users db ∧
    createFaulty db1 = createFaulty db)
    as (product & Hprod & Hnew & Hcarts & Hps & Hus & Hcf).
  { unfold linesOf.
    destruct (carts db !! User.email user) as [items|] eqn:Hcart; simpl.
    - rewrite (addProductToCart_with_cart _ _ _ _ _ Hcart) in Hadd.
      destruct (some _ items) eqn:Hsome; [done|].
      destruct (productOf db productId) as [product|]; [|done].
      inversion Hadd; subst. exists product. split_and!; try done.
      by apply not_inCart_some.
    - rewrite (addProductToCart_without_cart _ _ _ _ Hcart) in Hadd.
      destruct (createFaulty db) eqn:Hf; [done|].
      destruct (productOf db productId) as [product|]; [|done].
      inversion Hadd; subst. exists product. simpl. split_and!; try done.
      + intros (item & Hin & _). by apply elem_of_nil in Hin.
      + by rewrite insert_insert_eq. }
  pose proof (productOf_id _ _ _ Hprod) as Hid.
  apply not_inCart_Forall in Hnew.
  destruct (findIndex_split productId (linesOf db (User.email user)) []
              (line product quantity) Hnew Hid) as [Hidx Hsome].
  rewrite deleteProductFromCart_eq, Hcarts, lookup_insert_eq, Hsome.
  unfold splice1. rewrite Hidx, delete_middle, app_nil_r.
  eexists. split; [reflexivity|]. simpl.
  split; [by rewrite lookup_insert_eq|].
  intros [items Hcart]. unfold linesOf. rewrite Hcart. simpl.
  destruct db as [cs ps us cf], db1 as [cs1 ps1 us1 cf1].
  unfold set_carts. simpl in *. subst.
  by rewrite insert_insert_eq, insert_id.
Qed.

Lemma add_then_delete_restores_the_cart_witness :
  addProductToCart alice "p2" 2 dbThreeOfTwo =
    (dbTwoLines, Ok (Cart.mk (User.email alice) [line widget 3; line gadget 2])) ∧
  ∃ db2,
    deleteProductFromCart alice "p2" dbTwoLines = (db2, Ok ()) ∧
    carts db2 !! User.email alice = Some (linesOf dbThreeOfTwo (User.email alice)) ∧
    (is_Some (carts dbThreeOfTwo !! User.email alice) → db2 = dbThreeOfTwo).
Proof.
  assert (H : addProductToCart alice "p2" 2 dbThreeOfTwo =
    (dbTwoLines, Ok (Cart.mk (User.email alice) [line widget 3; line gadget 2])))
    by reflexivity.
  split; [exact H|].
  exact (add_then_delete_restores_the_cart _ _ _ _ _ _ H).
Defined.

(** X15: in a cart with one line per product, a deleted product is gone:
    after a successful [deleteProductFromCart] the cart has no line for
    [productId], and deleting it again throws "Product not in cart" and
    writes nothing. *)
Theorem deleteProductFromCart_twice
    (db db1 : Db) (user : User.t) (productId : string) :
  uniqueProducts (linesOf db (User.email user)) →
  deleteProductFromCart user productId db = (db1, Ok ()) →
  ¬ inCart productId (linesOf db1 (User.email user)) ∧
  deleteProductFromCart user productId db1 =
    (db1, Throw (BadRequest "Product not in cart")).
Proof.
  rewrite !deleteProductFromCart_eq. unfold linesOf.
  destruct (carts db !! User.email user) as [items|]; simpl; [|done].
  destruct (some (isProduct productId) items) eqn:Hsome; [|done].
  apply inCart_some in Hsome.
  destruct (first_line_rewritten productId items Hsome)
    as (before & item & after & Hsplit & Hid & Hbefore & _ & Hsplice).
  rewrite Hsplice. intros Hunique H. inversion H; subst db1. simpl.
  rewrite lookup_insert_eq. simpl.
  assert (Hgone : ¬ inCart productId (before ++ after)).
  { apply not_inCart_Forall, Forall_app. split; [done|].
    apply Forall_forall. intros it Hit Heq.
    unfold uniqueProducts in Hunique. rewrite Hsplit, fmap_app in Hunique.
    apply NoDup_app in Hunique as (_ & _ & Hnd). simpl in Hnd.
    apply NoDup_cons in Hnd as [Hnotin _]. apply Hnotin.
    rewrite Hid, <- Heq.
    by apply (list_elem_of_fmap_2 (λ it, Product._id (CartItem.product it))). }
  split; [done|]. apply not_inCart_some in Hgone. by rewrite Hgone.
Qed.

Lemma deleteProductFromCart_twice_witness :
  uniqueProducts (linesOf dbTwoLines (User.email alice)) ∧
  deleteProductFromCart alice "p2" dbTwoLines = (dbThreeOfTwo, Ok ()) ∧
  ¬ inCart "p2" (linesOf dbThreeOfTwo (User.email alice)) ∧
  deleteProductFromCart alice "p2" dbThreeOfTwo =
    (dbThreeOfTwo, Throw (BadRequest "Product not in cart")).
Proof.
  assert (H1 : uniqueProducts (linesOf dbTwoLines (User.email alice)))
    by (unfold uniqueProducts; apply (bool_decide_unpack _); vm_compute; exact I).
  assert (H2 : deleteProductFromCart alice "p2" dbTwoLines = (dbThreeOfTwo, Ok ()))
    by reflexivity.
  split; [exact H1|]. split; [exact H2|].
  exact (deleteProductFromCart_twice _ _ _ _ H1 H2).
Defined.

(** ** Checkout: the remaining paths *)

(** X16: the outcome of checkout, in Number arithmetic, is decided by its
    guards in their order: 404 exactly when the user has no cart; "Cart is
    empty" exactly when the cart exists and has no line; "Address not set"
    exactly when the cart has a line and the address is the default one; it
    succeeds only if the cart has a line and the address is not the default
    one, and, when the line costs and running totals are amounts on which
    Number arithmetic is exact, exactly when moreover the total does not
    exceed the wallet. *)
Theorem checkout_outcome (config : Config) (db : Db) (user : User.t) :
  ((Binary64.checkout config user db).2 =
     Throw (NotFound "User does not have a cart")
   ↔ carts db !! User.email user = None) ∧
  ((Binary64.checkout config user db).2 = Throw (BadRequest "Cart is empty")
   ↔ carts db !! User.email user = Some []) ∧
  ((Binary64.checkout config user db).2 = Throw (BadRequest "Address not set")
   ↔ linesOf db (User.email user) ≠ [] ∧
     User.address user = default_address config) ∧
  ((Binary64.checkout config user db).2 = Ok () →
   linesOf db (User.email user) ≠ [] ∧
   User.address user ≠ default_address config) ∧
  (exactAmounts 0 (linesOf db (User.email user)) →
   ((Binary64.checkout config user db).2 = Ok ()
    ↔ linesOf db (User.email user) ≠ [] ∧
      User.address user ≠ default_address config ∧
      sumLineCosts (linesOf db (User.email user)) ≤ User.walletMoney user)).
Proof.
  rewrite Binary64_checkout_eq. unfold linesOf.
  destruct (carts db !! User.email user) as [items|]; simpl; [|decide_outcome].
  destruct items as [|item items]; [simpl; decide_outcome|].
  change ((length (item :: items) =? 0)%nat) with false. cbv iota.
  remember (item :: items) as l eqn:El.
  assert (Hl : l ≠ []) by (by subst l). clear El.
  pose proof (hasSetNonDefaultAddress_true config user) as Haddr.
  destruct (User.hasSetNonDefaultAddress config user); simpl.
  - assert (Hne : User.address user ≠ default_address config) by by apply Haddr.
    split_and!; [decide_outcome..|].
    + by destruct (_ >? _).
    + by destruct (_ >? _).
    + by destruct (_ >? _).
    + intros Hexact. rewrite (Binary64_reduce_exact _ _ Hexact), Z.add_0_l.
      destruct (Z.gtb_spec (sumLineCosts l) (User.walletMoney user));
        simpl; decide_outcome; lia.
  - assert (Heq : User.address user = default_address config).
    { destruct (decide (User.address user = default_address config)) as [|Hn];
        [done|]. apply Haddr in Hn. done. }
    decide_outcome.
Qed.

Lemma checkout_outcome_witness :
  exactAmounts 0 (linesOf dbSix (User.email alice)) ∧
  ((Binary64.checkout sampleConfig alice dbSix).2 = Ok ()
   ↔ linesOf dbSix (User.email alice) ≠ [] ∧
     User.address alice ≠ default_address sampleConfig ∧
     sumLineCosts (linesOf dbSix (User.email alice)) ≤ User.walletMoney alice) ∧
  exactAmounts 0 (linesOf dbThree (User.email alice)) ∧
  (Binary64.checkout sampleConfig alice dbThree).2 = Ok ().
Proof.
  assert (H6 : exactAmounts 0 (linesOf dbSix (User.email alice)))
    by (vm_compute; repeat split; discriminate).
  assert (H3 : exactAmounts 0 (linesOf dbThree (User.email alice)))
    by (vm_compute; repeat split; discriminate).
  destruct (checkout_outcome sampleConfig dbSix alice) as (_ & _ & _ & _ & Hsix).
  destruct (checkout_outcome sampleConfig dbThree alice) as (_ & _ & _ & _ & Hthree).
  split; [exact H6|]. split; [exact (Hsix H6)|]. split; [exact H3|].
  apply (Hthree H3).
  split; [discriminate|]. split; [discriminate|]. vm_compute. discriminate.
Defined.

(** X17: checkout cannot be repeated: after a successful [checkout] the cart
    document is still there, empty, so [getCartByUser] returns it and a
    second [checkout] for the same email throws "Cart is empty", whatever the
    wallet, and debits nothing. *)
Theorem checkout_twice
    (config : Config) (db db1 : Db) (user user' : User.t) :
  checkout config user db = (db1, Ok ()) →
  User.email user' = User.email user →
  getCartByUser user' db1 = (db1, Ok (Cart.mk (User.email user) [])) ∧
  checkout config user' db1 = (db1, Throw (BadRequest "Cart is empty")).
Proof.
  rewrite getCartByUser_eq, !checkout_eq. intros H Hemail. rewrite Hemail.
  destruct (carts db !! User.email user) as [items|]; [|done].
  destruct (length items =? 0)%nat; [done|].
  destruct (negb _); [done|].
  destruct (_ >? _); [done|].
  inversion H; subst db1. simpl. by rewrite lookup_insert_eq.
Qed.

Lemma checkout_twice_witness :
  checkout sampleConfig alice dbThree =
    (set_carts <[User.email alice := []]>
       (set_users <[User.email alice := debit alice 300]> dbThree), Ok ()) ∧
  User.email (debit alice 300) = User.email alice ∧
  getCartByUser (debit alice 300)
    (set_carts <[User.email alice := []]>
       (set_users <[User.email alice := debit alice 300]> dbThree)) =
    (set_carts <[User.email alice := []]>
       (set_users <[User.email alice := debit alice 300]> dbThree),
     Ok (Cart.mk (User.email alice) [])) ∧
  checkout sampleConfig (debit alice 300)
    (set_carts <[User.email alice := []]>
       (set_users <[User.email alice := debit alice 300]> dbThree)) =
    (set_carts <[User.email alice := []]>
       (set_users <[User.email alice := debit alice 300]> dbThree),
     Throw (BadRequest "Cart is empty")).
Proof.
  assert (H1 : checkout sampleConfig alice dbThree =
    (set_carts <[User.email alice := []]>
       (set_users <[User.email alice := debit alice 300]> dbThree), Ok ()))
    by reflexivity.
  assert (H2 : User.email (debit alice 300) = User.email alice) by reflexivity.
  split; [exact H1|]. split; [exact H2|].
  exact (checkout_twice sampleConfig _ _ alice (debit alice 300) H1 H2).
Defined.



(** X19: [checkout] prices the cart from the snapshots in its lines and
    never reads the products collection: with any other products collection
    it answers the same and writes the same. *)
Theorem checkout_ignores_products
    (config : Config) (db : Db) (user : User.t) (ps : list Product.t) :
  (checkout config user (set_products ps db)).2 = (checkout config user db).2 ∧
  (checkout config user (set_products ps db)).1 =
    set_products ps (checkout config user db).1.
Proof.
  rewrite !checkout_eq. simpl.
  destruct (carts db !! User.email user) as [items|]; [|done].
  destruct (length items =? 0)%nat; [done|].
  destruct (negb _); [done|].
  by destruct (_ >? _).
Qed.

(** ** Sequences of requests *)

Lemma perform_uniqueCarts (config : Config) (db : Db) (c : Call) :
  uniqueCarts db → uniqueCarts (perform config db c).
Proof.
  intros Hdb. destruct c as [user|user pid q|user pid q|user pid|user]; simpl.
  - rewrite getCartByUser_eq. by destruct (carts db !! User.email user).
  - by apply (uniqueCarts_preserved config db user pid q).
  - by apply (uniqueCarts_preserved config db user pid q).
  - by apply (uniqueCarts_preserved config db user pid 0).
  - by apply (uniqueCarts_preserved config db user "" 0).
Qed.

Lemma perform_positiveQuantities (config : Config) (db : Db) (c : Call) :
  positiveQuantities db → positiveCall c → positiveQuantities (perform config db c).
Proof.
  intros Hdb Hc. destruct c as [user|user pid q|user pid q|user pid|user]; simpl in *.
  - rewrite getCartByUser_eq. by destruct (carts db !! User.email user).
  - by apply addProductToCart_positiveQuantities.
  - by apply updateProductInCart_positiveQuantities.
  - by apply deleteProductFromCart_positiveQuantities.
  - by apply checkout_positiveQuantities.
Qed.

Lemma perform_keeps_carts (config : Config) (db : Db) (c : Call) (email : string) :
  is_Some (carts db !! email) → is_Some (carts (perform config db c) !! email).
Proof.
  intros Hcart.
  assert (Hins : ∀ e items, is_Some (<[e := items]> (carts db) !! email)).
  { intros e items. destruct (decide (e = email)) as [->|Hne].
    - rewrite lookup_insert_eq. by eexists.
    - by rewrite lookup_insert_ne. }
  destruct c as [user|user pid q|user pid q|user pid|user]; simpl.
  - rewrite getCartByUser_eq. by destruct (carts db !! User.email user).
  - destruct (carts db !! User.email user) as [items|] eqn:Hc.
    + rewrite (addProductToCart_with_cart _ _ _ _ _ Hc).
      destruct (some _ items); [done|].
      destruct (productOf db pid); [|done]. apply Hins.
    + rewrite (addProductToCart_without_cart _ _ _ _ Hc).
      destruct (createFaulty db); [done|].
      destruct (productOf db pid); simpl; [|apply Hins].
      rewrite insert_insert_eq. apply Hins.
  - rewrite updateProductInCart_eq.
    destruct (carts db !! User.email user) as [items|]; [|done].
    destruct (productOf db pid); [|done].
    destruct (some _ items); [|done]. apply Hins.
  - rewrite deleteProductFromCart_eq.
    destruct (carts db !! User.email user) as [items|]; [|done].
    destruct (some _ items); [|done]. apply Hins.
  - rewrite checkout_eq.
    destruct (carts db !! User.email user) as [items|]; [|done].
    destruct (length items =? 0)%nat; [done|].
    destruct (negb _); [done|].
    destruct (_ >? _); [done|]. apply Hins.
Qed.

Lemma perform_products (config : Config) (db : Db) (c : Call) :
  products (perform config db c) = products db.
Proof.
  destruct c as [user|user pid q|user pid q|user pid|user]; simpl.
  - rewrite getCartByUser_eq. by destruct (carts db !! User.email user).
  - apply addProductToCart_frame.
  - apply updateProductInCart_frame.
  - apply deleteProductFromCart_frame.
  - apply checkout_frame.
Qed.

(** X20: however the requests to the service follow one another, and
    whether they return or throw, no cart ever gets two lines for one
    product: the invariant holds after every sequence of requests run from a
    database where it holds, such as one without carts. *)
Theorem session_keeps_one_line_per_product
    (config : Config) (cs : list Call) (db : Db) :
  uniqueCarts db → uniqueCarts (session config cs db).
Proof.
  unfold session. revert db.
  induction cs as [|c cs IH]; intros db Hdb; simpl; [done|].
  apply IH. by apply perform_uniqueCarts.
Qed.

Lemma session_keeps_one_line_per_product_witness :
  uniqueCarts dbNoCart ∧
  uniqueCarts
    (session sampleConfig
       [AddProduct alice "p1" 3; AddProduct alice "p1" 1; UpdateProduct alice "p1" 2;
        AddProduct alice "p2" 4; DeleteProduct alice "p1"; AddProduct alice "p1" 1]
       dbNoCart).
Proof.
  assert (H : uniqueCarts dbNoCart) by apply map_Forall_empty.
  split; [exact H|].
  exact (session_keeps_one_line_per_product sampleConfig _ dbNoCart H).
Defined.

(** X21: as long as every add and update request carries a quantity above
    zero, every line of every cart keeps a quantity above zero, after any
    sequence of requests. *)
Theorem session_keeps_quantities_positive
    (config : Config) (cs : list Call) (db : Db) :
  positiveQuantities db →
  Forall positiveCall cs →
  positiveQuantities (session config cs db).
Proof.
  unfold session. intros Hdb Hcs. revert db Hdb.
  induction Hcs as [|c cs Hc Hcs IH]; intros db Hdb; simpl; [done|].
  apply IH. by apply perform_positiveQuantities.
Qed.

Lemma session_keeps_quantities_positive_witness :
  positiveQuantities dbNoCart ∧
  Forall positiveCall
    [AddProduct alice "p1" 3; AddProduct alice "p1" 1; UpdateProduct alice "p1" 2;
     AddProduct bob "p2" 4; DeleteProduct bob "p2"; Checkout alice] ∧
  positiveQuantities
    (session sampleConfig
       [AddProduct alice "p1" 3; AddProduct alice "p1" 1; UpdateProduct alice "p1" 2;
        AddProduct bob "p2" 4; DeleteProduct bob "p2"; Checkout alice] dbNoCart).
Proof.
  assert (H1 : positiveQuantities dbNoCart) by apply map_Forall_empty.
  assert (H2 : Forall positiveCall
    [AddProduct alice "p1" 3; AddProduct alice "p1" 1; UpdateProduct alice "p1" 2;
     AddProduct bob "p2" 4; DeleteProduct bob "p2"; Checkout alice])
    by (repeat constructor).
  split; [exact H1|]. split; [exact H2|].
  exact (session_keeps_quantities_positive sampleConfig _ dbNoCart H1 H2).
Defined.

(** X22: the service never deletes a cart document and never changes the
    products collection: a cart that exists still exists after any sequence
    of requests (checkout empties it, deleting lines shortens it), and the
    products are the same. *)
Theorem session_never_deletes_a_cart
    (config : Config) (cs : list Call) (db : Db) (email : string) :
  products (session config cs db) = products db ∧
  (is_Some (carts db !! email) → is_Some (carts (session config cs db) !! email)).
Proof.
  unfold session. revert db.
  induction cs as [|c cs IH]; intros db; simpl; [done|].
  destruct (IH (perform config db c)) as [Hps Hcs].
  split.
  - by rewrite Hps, perform_products.
  - intros H. apply Hcs. by apply perform_keeps_carts.
Qed.

Lemma session_never_deletes_a_cart_witness :
  is_Some (carts dbThree !! User.email alice) ∧
  products (session sampleConfig
              [Checkout alice; DeleteProduct alice "p1"; AddProduct bob "p1" 1]
              dbThree) = products dbThree ∧
  is_Some (carts (session sampleConfig
                    [Checkout alice; DeleteProduct alice "p1"; AddProduct bob "p1" 1]
                    dbThree) !! User.email alice).
Proof.
  assert (H : is_Some (carts dbThree !! User.email alice)) by (eexists; reflexivity).
  split; [exact H|].
  destruct (session_never_deletes_a_cart sampleConfig
              [Checkout alice; DeleteProduct alice "p1"; AddProduct bob "p1" 1]
              dbThree (User.email alice)) as [Hps Hcart].
  split; [exact Hps|exact (Hcart H)].
Defined.

(** What a successful [addProductToCart] found and wrote. *)
Lemma addProductToCart_returned
    (db db1 : Db) (user : User.t) (productId : string) (quantity : Z)
    (cart : Cart.t) :
  addProductToCart user productId quantity db = (db1, Ok cart) →
  ∃ product,
    productOf db productId = Some product ∧
    Forall (λ it, Product._id (CartItem.product it) ≠ productId)
      (linesOf db (User.email user)) ∧
    Cart.cartItems cart = linesOf db (User.email user) ++ [line product quantity] ∧
    carts db1 !! User.email user = Some (Cart.cartItems cart).
Proof.
  unfold linesOf. intros Hadd.
  destruct (carts db !! User.email user) as [items|] eqn:Hcart; simpl.
  - rewrite (addProductToCart_with_cart _ _ _ _ _ Hcart) in Hadd.
    destruct (some _ items) eqn:Hsome; [done|].
    destruct (productOf db productId) as [product|]; [|done].
    inversion Hadd; subst. exists product. simpl. rewrite lookup_insert_eq.
    split_and!; try done. by apply not_inCart_Forall, not_inCart_some.
  - rewrite (addProductToCart_without_cart _ _ _ _ Hcart) in Hadd.
    destruct (createFaulty db); [done|].
    destruct (productOf db productId) as [product|]; [|done].
    inversion Hadd; subst. exists product. simpl. by rewrite lookup_insert_eq.
Qed.

(** X23: adding the same product a second time.  After a successful
    [addProductToCart], a second one for the same product, with whatever
    quantity, throws "Product already in cart...", writes nothing, and the
    cart has exactly one line for the product: the one the first call pushed,
    holding the Product found then and the first quantity. *)
Theorem addProductToCart_second_time_is_rejected
    (db db1 : Db) (user : User.t) (productId : string) (q1 q2 : Z) (cart : Cart.t) :
  addProductToCart user productId q1 db = (db1, Ok cart) →
  addProductToCart user productId q2 db1 = (db1, Throw alreadyInCart) ∧
  carts db1 !! User.email user = Some (Cart.cartItems cart) ∧
  ∃ product,
    productOf db productId = Some product ∧
    filter (λ it, Product._id (CartItem.product it) = productId)
      (Cart.cartItems cart) = [line product q1].
Proof.
  intros Hadd.
  destruct (addProductToCart_returned _ _ _ _ _ _ Hadd)
    as (product & Hprod & Hold & Hitems & Hcart1).
  pose proof (productOf_id _ _ _ Hprod) as Hid.
  destruct (findIndex_split productId _ [] (line product q1) Hold Hid)
    as [_ Hsome].
  split_and!; [|done|].
  - rewrite (addProductToCart_with_cart _ _ _ _ _ Hcart1), Hitems.
    by rewrite Hsome.
  - exists product. split; [done|]. rewrite Hitems, filter_app.
    rewrite filter_cons_True, filter_nil by done.
    assert (Hnone : filter (λ it, Product._id (CartItem.product it) = productId)
                      (linesOf db (User.email user)) = []).
    { clear -Hold. induction Hold as [|x l Hx Hl IH]; [done|].
      by rewrite filter_cons_False. }
    by rewrite Hnone.
Qed.

Lemma addProductToCart_second_time_is_rejected_witness :
  addProductToCart alice "p2" 2 dbThreeOfTwo =
    (dbTwoLines, Ok (Cart.mk (User.email alice) [line widget 3; line gadget 2])) ∧
  addProductToCart alice "p2" 5 dbTwoLines = (dbTwoLines, Throw alreadyInCart) ∧
  carts dbTwoLines !! User.email alice = Some [line widget 3; line gadget 2] ∧
  ∃ product,
    productOf dbThreeOfTwo "p2" = Some product ∧
    filter (λ it, Product._id (CartItem.product it) = "p2")
      [line widget 3; line gadget 2] = [line product 2].
Proof.
  assert (H : addProductToCart alice "p2" 2 dbThreeOfTwo =
    (dbTwoLines, Ok (Cart.mk (User.email alice) [line widget 3; line gadget 2])))
    by reflexivity.
  split; [exact H|].
  exact (addProductToCart_second_time_is_rejected _ _ _ _ _ 5 _ H).
Defined.

(** * The password validator *)

Lemma password_matches_app (class : Ascii.ascii → bool) (a b : string) :
  password.matches class (String.append a b) =
  password.matches class a || password.matches class b.
Proof.
  induction a as [|c a IH]; simpl; [done|].
  rewrite IH. by rewrite orb_assoc.
Qed.

Lemma password_digit_is_no_letter (c : Ascii.ascii) :
  password.isDigit c = true → password.isLetter c = false.
Proof.
  unfold password.isDigit, password.isLetter.
  generalize (Ascii.nat_of_ascii c). intros n H.
  apply andb_true_iff in H as [H1 H2].
  apply Nat.leb_le in H1, H2.
  apply orb_false_iff. split; apply andb_false_iff; left; apply Nat.leb_gt; lia.
Qed.

Lemma password_validate_returns (value : string) :
  password.validate value = password.Returns ↔
  password.matches password.isDigit value = true ∧
  password.matches password.isLetter value = true.
Proof.
  unfold password.validate.
  destruct (password.matches password.isDigit value),
    (password.matches password.isLetter value); simpl; split;
    try done; intros [? ?]; done.
Qed.

(** X24: a password the validator accepts has at least two characters: one
    character cannot be a digit and a letter at once, so the empty string
    and every one-character string are rejected with "Password must contain
    at least one letter and one number". *)
Theorem password_validate_needs_two_characters (value : string) :
  (String.length value < 2)%nat →
  password.validate value =
    password.ThrowsError "Password must contain at least one letter and one number".
Proof.
  intros Hlen. destruct value as [|c [|c' rest]]; simpl in Hlen; [done| |lia].
  unfold password.validate. simpl. rewrite !orb_false_r.
  destruct (password.isDigit c) eqn:Hd; [|done].
  by rewrite (password_digit_is_no_letter c Hd).
Qed.

Lemma password_validate_needs_two_characters_witness :
  (String.length "7" < 2)%nat ∧
  password.validate "7" =
    password.ThrowsError "Password must contain at least one letter and one number".
Proof.
  assert (H : (String.length "7" < 2)%nat) by (vm_compute; lia).
  split; [exact H|].
  exact (password_validate_needs_two_characters "7" H).
Defined.

(** X25: the validator only asks for one digit and one letter somewhere:
    an accepted password stays accepted when characters are put before and
    after it, and the order of the parts of a password does not matter. *)
Theorem password_validate_monotone (pre value post : string) :
  (password.validate value = password.Returns →
   password.validate (String.append pre (String.append value post)) =
     password.Returns) ∧
  password.validate (String.append pre post) =
    password.validate (String.append post pre).
Proof.
  split.
  - rewrite !password_validate_returns, !password_matches_app.
    intros [-> ->]. by rewrite !orb_true_r.
  - unfold password.validate. rewrite !password_matches_app.
    by rewrite (orb_comm (password.matches password.isDigit pre)),
      (orb_comm (password.matches password.isLetter pre)).
Qed.

Lemma password_validate_monotone_witness :
  password.validate "a1" = password.Returns ∧
  password.validate (String.append "  " (String.append "a1" "!")) =
    password.Returns ∧
  password.validate (String.append "  " "!") =
    password.validate (String.append "!" "  ").
Proof.
  assert (H : password.validate "a1" = password.Returns) by reflexivity.
  split; [exact H|].
  destruct (password_validate_monotone "  " "a1" "!") as [Hmono Hcomm].
  split; [exact (Hmono H)|exact Hcomm].
Defined.
